(** * SCP Quality Automation System (CSP.py)

    A shallow embedding of the two pieces of logic of [src/CSP.py]:

    - [SCPSigmaTransfer.secure_transfer], the retry loop around one file
      transfer, with its helpers [_calculate_sha256] and [_get_remote_sha256],
      and [generate_quality_report];
    - [SixSigmaAnalyzer], the statistics computed from the recorded
      throughputs ([calculate_cpk], [control_chart], [calculate_sigma_level]).

    Python [float] and [numpy.float64] are IEEE binary64 numbers: they are
    modelled by Rocq's primitive floats, Python [int] by [Z], [str] by
    [string], [bytes] by [list byte].  The SSH/SCP channel, the file system,
    the clock and the logger are outside the program: they are an interface
    ([Collaborators]) the transfer code is written against. *)

From Stdlib Require Import ZArith List String Ascii Bool Lia Floats.
From Stdlib.Strings Require Import Byte.
From Stdlib Require Import DecimalString Permutation.
Import ListNotations.

Set Warnings "-register-all".

Local Open Scope string_scope.
Local Open Scope Z_scope.

(** ** Python values and arithmetic *)

Module Py.

(** The exceptions the modelled code meets.  [IntegrityError] is the
    program's own class; the others are raised by the interpreter or by the
    libraries the program calls. *)
Inductive exn : Type :=
| IntegrityError (msg : string)
| ZeroDivisionError (msg : string)
| OverflowError (msg : string)
| IndexError (msg : string)
| UnicodeDecodeError (msg : string)
| OSError (msg : string)
| SCPException (msg : string)
| SSHException (msg : string).

(** [str(e)] *)
Definition str_exn (e : exn) : string :=
  match e with
  | IntegrityError m | ZeroDivisionError m | OverflowError m | IndexError m
  | UnicodeDecodeError m | OSError m | SCPException m | SSHException m => m
  end.

(** The outcome of evaluating an expression: it raises or it has a value. *)
Definition result (A : Type) : Type := (exn + A)%type.

(** [str(n)] for an [int]. *)
Definition str_int (n : Z) : string := NilZero.string_of_int (Z.to_int n).

(** [range(lo, hi)] *)
Definition range (lo hi : Z) : list Z :=
  map (fun i => lo + Z.of_nat i) (seq 0 (Z.to_nat (hi - lo))).

(** [float(n)]: the binary64 number nearest to [n], ties to even; an [int]
    beyond the binary64 range rounds to [infinity] here, which is where Python
    raises [OverflowError] (see [int_div_float]). *)
Definition float_of_int (n : Z) : float :=
  SF2Prim (binary_normalize prec emax n 0 false).

(** [x == 0] on floats: true of both zeros, false of a NaN. *)
Definition is_zero (x : float) : bool := PrimFloat.eqb x 0%float.

Definition is_infinite (x : float) : bool :=
  PrimFloat.eqb (PrimFloat.abs x) infinity.

(** [n / d] for an [int] [n] and a [float] [d]: [n] is converted, and a zero
    divisor raises. *)
Definition int_div_float (n : Z) (d : float) : result float :=
  let x := float_of_int n in
  if is_infinite x then inl (OverflowError "int too large to convert to float")
  else if is_zero d then inl (ZeroDivisionError "float division by zero")
  else inr (x / d)%float.

(** [a / b] for two [int]s, [b] not zero (on zero Python raises; the program
    divides by a length it has checked).  For operands below [2^53], the only
    ones a count or a length can reach, Python's correctly rounded quotient is
    the quotient of the converted operands. *)
Definition int_truediv (a b : Z) : float :=
  (float_of_int a / float_of_int b)%float.

(** [min(a, b)]: the first argument unless the second is smaller. *)
Definition min (a b : float) : float := if PrimFloat.ltb b a then b else a.

(** [sum(xs)] for a sequence of [int]s. *)
Definition sum (xs : list Z) : Z := fold_left Z.add xs 0.

(** *** [bytes.decode()]

    A [str] is represented by its UTF-8 encoding, which determines it: [==]
    on [str] is equality of the representations. *)

(** A continuation byte, [0x80] to [0xBF]. *)
Definition is_continuation (b : byte) : bool :=
  ((128 <=? Byte.to_N b) && (Byte.to_N b <? 192))%N.

(** The first ill-formed sequence of [bs], whose first byte is at position
    [s] of the object decoded: its first position, the position after its
    last, and the reason the codec gives; [None] where [bs] is well-formed
    UTF-8.  The cases are those of the interpreter's decoder: overlong forms
    ([0xC0], [0xC1], [0xE0] below [0xA0], [0xF0] below [0x90]), surrogates
    ([0xED] from [0xA0]) and code points beyond [0x10FFFF] ([0xF4] from
    [0x90], [0xF5] and above) are rejected. *)
Fixpoint utf8_error (s : Z) (bs : list byte) : option (Z * Z * string) :=
  let eod := Some (s, s + Z.of_nat (List.length bs), "unexpected end of data") in
  let continuation k := Some (s, s + k, "invalid continuation byte") in
  let start := Some (s, s + 1, "invalid start byte") in
  match bs with
  | [] => None
  | b1 :: r1 =>
      let ch := Byte.to_N b1 in
      if (ch <? 128)%N then utf8_error (s + 1) r1
      else if (ch <? 194)%N then start
      else if (ch <? 224)%N then
        match r1 with
        | [] => eod
        | b2 :: r2 =>
            if is_continuation b2 then utf8_error (s + 2) r2
            else continuation 1
        end
      else if (ch <? 240)%N then
        match r1 with
        | [] => eod
        | b2 :: r2 =>
            if negb (is_continuation b2)
               || (if (Byte.to_N b2 <? 160)%N then (ch =? 224)%N
                   else (ch =? 237)%N)
            then continuation 1
            else
              match r2 with
              | [] => eod
              | b3 :: r3 =>
                  if is_continuation b3 then utf8_error (s + 3) r3
                  else continuation 2
              end
        end
      else if (ch <? 245)%N then
        match r1 with
        | [] => eod
        | b2 :: r2 =>
            if negb (is_continuation b2)
               || (if (Byte.to_N b2 <? 144)%N then (ch =? 240)%N
                   else (ch =? 244)%N)
            then continuation 1
            else
              match r2 with
              | [] => eod
              | b3 :: r3 =>
                  if negb (is_continuation b3) then continuation 2
                  else
                    match r3 with
                    | [] => eod
                    | b4 :: r4 =>
                        if is_continuation b4 then utf8_error (s + 4) r4
                        else continuation 3
                    end
              end
        end
      else start
  end.

(** ['%x' % n] for [n] below 16. *)
Definition hex_digit (n : N) : string :=
  String.substring (N.to_nat n) 1 "0123456789abcdef".

(** ['0x%02x' % b] *)
Definition hex_byte (b : byte) : string :=
  "0x" ++ hex_digit (Byte.to_N b / 16)%N ++ hex_digit (Byte.to_N b mod 16)%N.

(** [str(e)] for the [UnicodeDecodeError] the codec raises on the object
    [bs] for the ill-formed sequence from [s] to [e] (excluded). *)
Definition decode_error_message (bs : list byte) (s e : Z) (reason : string)
  : string :=
  if e =? s + 1
  then "'utf-8' codec can't decode byte "
       ++ hex_byte (nth (Z.to_nat s) bs x00)
       ++ " in position " ++ str_int s ++ ": " ++ reason
  else "'utf-8' codec can't decode bytes in position "
       ++ str_int s ++ "-" ++ str_int (e - 1) ++ ": " ++ reason.

(** [bs.decode()], the codec being UTF-8 and the error handler ['strict']. *)
Definition bytes_decode (bs : list byte) : result string :=
  match utf8_error 0 bs with
  | None => inr (string_of_list_byte bs)
  | Some (s, e, reason) =>
      inl (UnicodeDecodeError (decode_error_message bs s e reason))
  end.

(** JSON-like values: what the report dictionary is made of.  A [dict] keeps
    its keys in insertion order. *)
Inductive value : Type :=
| VFloat (x : float)
| VInt (n : Z)
| VStr (s : string)
| VList (items : list value)
| VDict (items : list (string * value)).

(** [d.get(k)] *)
Fixpoint dict_get {A : Type} (k : string) (d : list (string * A)) : option A :=
  match d with
  | [] => None
  | (k', v) :: rest => if String.eqb k k' then Some v else dict_get k rest
  end.

End Py.

(** ** The data model *)

(** [@dataclass class TransferMetrics] *)
Record TransferMetrics : Type := mkTransferMetrics {
  filename : string;
  size_bytes : Z;
  duration_sec : float;
  throughput_mbps : float;
  sha256_checksum : string;
  timestamp : string
}.

(** [vars(m)]: the instance dictionary, fields in declaration order. *)
Definition vars (m : TransferMetrics) : Py.value :=
  Py.VDict
    [ ("filename", Py.VStr (filename m));
      ("size_bytes", Py.VInt (size_bytes m));
      ("duration_sec", Py.VFloat (duration_sec m));
      ("throughput_mbps", Py.VFloat (throughput_mbps m));
      ("sha256_checksum", Py.VStr (sha256_checksum m));
      ("timestamp", Py.VStr (timestamp m)) ].

(** What the program tells the logger and the scheduler: the calls to
    [logger.info/error/critical] and to [time.sleep], in order. *)
Inductive level : Type := INFO | ERROR | CRITICAL.

Inductive event : Type :=
| Log (lvl : level) (msg : string)
| Sleep (seconds : Z).

(** ** The collaborators

    Everything [secure_transfer] calls that is not its own code.  A call takes
    the state of the outside world and gives back its outcome and the next
    state; one that can raise gives a [Py.result]. *)
Class Collaborators (World : Type) : Type := {
  (** [time.time()] *)
  time_time : World -> float * World;
  (** [time.strftime("%Y-%m-%d %H:%M:%S")] *)
  time_strftime : World -> string * World;
  (** [time.sleep(seconds)] *)
  time_sleep : Z -> World -> World;
  (** [open(path, 'rb')] and the reads that follow: the bytes of the file. *)
  read_file : string -> World -> Py.result (list byte) * World;
  (** [hashlib.sha256]: the hex digest of the bytes fed to the hash object. *)
  sha256_hexdigest : list byte -> string;
  (** [self.scp.put(local_path, remote_path)] *)
  scp_put : string -> string -> World -> Py.result unit * World;
  (** [self.ssh.exec_command(command)] followed by [stdout.read()] *)
  ssh_exec_command : string -> World -> Py.result (list byte) * World;
  (** [Path(path).stat().st_size] *)
  stat_st_size : string -> World -> Py.result Z * World
}.

(** The state of a [SCPSigmaTransfer] object during a session: [self.metrics],
    what has been logged and slept so far, and the world behind the
    collaborators. *)
Record Session (World : Type) : Type := mkSession {
  metrics : list TransferMetrics;
  trace : list event;
  world : World
}.

Arguments mkSession {World}.
Arguments metrics {World}.
Arguments trace {World}.
Arguments world {World}.

(** The seconds slept, in order. *)
Definition sleeps (tr : list event) : list Z :=
  flat_map (fun ev => match ev with Sleep z => [z] | Log _ _ => [] end) tr.

(** ** Statements that may raise, over a session *)

Definition M (World A : Type) : Type :=
  Session World -> Py.result A * Session World.

Definition ret {World A : Type} (a : A) : M World A := fun s => (inr a, s).

Definition raise {World A : Type} (e : Py.exn) : M World A :=
  fun s => (inl e, s).

Definition bind {World A B : Type} (c : M World A) (k : A -> M World B)
  : M World B :=
  fun s =>
    match c s with
    | (inl e, s') => (inl e, s')
    | (inr a, s') => k a s'
    end.

Notation "x <- c ;; k" := (bind c (fun x => k))
  (at level 61, c at next level, right associativity).
Notation "c ;;; k" := (bind c (fun _ => k))
  (at level 61, right associativity).

(** A collaborator call that cannot raise. *)
Definition call {World A : Type} (f : World -> A * World) : M World A :=
  fun s =>
    let (a, w) := f (world s) in
    (inr a, mkSession (metrics s) (trace s) w).

(** A collaborator call that can raise. *)
Definition try_call {World A : Type} (f : World -> Py.result A * World)
  : M World A :=
  fun s =>
    let (r, w) := f (world s) in
    (r, mkSession (metrics s) (trace s) w).

(** An evaluation that can raise and touches nothing. *)
Definition eval {World A : Type} (r : Py.result A) : M World A :=
  fun s => (r, s).

Definition emit {World : Type} (e : event) (s : Session World)
  : Session World :=
  mkSession (metrics s) (trace s ++ [e]) (world s).

Definition logger {World : Type} (lvl : level) (msg : string) : M World unit :=
  fun s => (inr tt, emit (Log lvl msg) s).

(** [self.metrics.append(m)] *)
Definition metrics_append {World : Type} (m : TransferMetrics) : M World unit :=
  fun s => (inr tt, mkSession (metrics s ++ [m]) (trace s) (world s)).

(** A statement is quiet when it leaves [self.metrics] and the log alone,
    however it ends. *)
Definition quiet {World A : Type} (c : M World A) : Prop :=
  forall s r s', c s = (r, s') -> metrics s' = metrics s /\ trace s' = trace s.

(** A statement is quiet on failure when raising undoes nothing because
    nothing was done. *)
Definition quiet_on_failure {World A : Type} (c : M World A) : Prop :=
  forall s e s',
    c s = (inl e, s') -> metrics s' = metrics s /\ trace s' = trace s.

(** An attempt that ended in an exception. *)
Definition failed {World : Type} (a : Session World * Py.result unit) : bool :=
  match snd a with
  | inl _ => true
  | inr _ => false
  end.

(** ** [SCPSigmaTransfer]: the transfer *)

Section Transfer.

Context {World : Type} {collaborators : Collaborators World}.

(** The size of the chunks [_calculate_sha256] reads. *)
Definition chunk_size : nat := Z.to_nat 8192.

(** [while chunk := f.read(8192): sha256.update(chunk)], on the bytes [f]
    still unread and the bytes [fed] to the hash object so far.  Every turn
    but the last consumes a byte, so [S (length f)] turns are enough
    ([read_loop_reads_all]). *)
Fixpoint read_loop (fuel : nat) (f fed : list byte) : list byte :=
  match fuel with
  | O => fed
  | S fuel' =>
      match firstn chunk_size f with
      | [] => fed
      | chunk => read_loop fuel' (skipn chunk_size f) (fed ++ chunk)
      end
  end.

(** [_calculate_sha256(file_path)] *)
Definition _calculate_sha256 (file_path : string) : M World string :=
  f <- try_call (read_file file_path) ;;
  ret (sha256_hexdigest (read_loop (S (List.length f)) f [])).

(** ASCII whitespace, where [bytes.split()] cuts. *)
Definition is_space (b : byte) : bool :=
  match b with
  | x20 | x09 | x0a | x0b | x0c | x0d => true
  | _ => false
  end.

Fixpoint lstrip (bs : list byte) : list byte :=
  match bs with
  | b :: rest => if is_space b then lstrip rest else bs
  | [] => []
  end.

Fixpoint token (bs : list byte) : list byte :=
  match bs with
  | b :: rest => if is_space b then [] else b :: token rest
  | [] => []
  end.

(** [out.split()[0]] *)
Definition first_token (out : list byte) : Py.result (list byte) :=
  match token (lstrip out) with
  | [] => inl (Py.IndexError "list index out of range")
  | t => inr t
  end.

(** [t.decode()]: the token is decoded as UTF-8; a token that is not
    well-formed UTF-8 raises [UnicodeDecodeError]. *)
Definition decode (t : list byte) : Py.result string := Py.bytes_decode t.

(** [_get_remote_sha256(remote_path)] *)
Definition _get_remote_sha256 (remote_path : string) : M World string :=
  out <- try_call (ssh_exec_command ("sha256sum " ++ remote_path)) ;;
  t <- eval (first_token out) ;;
  eval (decode t).

(** The message of [logger.info] after a clean transfer. *)
Definition success_message (local_path remote_path : string) : string :=
  "Transfer successful: " ++ local_path ++ " -> " ++ remote_path.

(** The body of the [try] block of [secure_transfer] (lines 86 to 114): it
    ends normally where the source returns [True], and raises otherwise. *)
Definition attempt (local_path remote_path : string) (verify : bool)
  : M World unit :=
  start_time <- call time_time ;;
  local_hash <- _calculate_sha256 local_path ;;
  try_call (scp_put local_path remote_path) ;;;
  end_time <- call time_time ;;
  let transfer_time := (end_time - start_time)%float in
  (if verify then
     remote_hash <- _get_remote_sha256 remote_path ;;
     if negb (String.eqb local_hash remote_hash)
     then raise (Py.IntegrityError "Checksum mismatch")
     else ret tt
   else ret tt) ;;;
  file_size <- try_call (stat_st_size local_path) ;;
  throughput <- eval (Py.int_div_float (file_size * 8)
                        (transfer_time * Py.float_of_int 1000000)%float) ;;
  stamp <- call time_strftime ;;
  metrics_append
    {| filename := local_path;
       size_bytes := file_size;
       duration_sec := transfer_time;
       throughput_mbps := throughput;
       sha256_checksum := local_hash;
       timestamp := stamp |} ;;;
  logger INFO (success_message local_path remote_path).

(** [time.sleep(seconds)]: the world moves on, and the call is recorded. *)
Definition sleep (seconds : Z) (s : Session World) : Session World :=
  mkSession (metrics s) (trace s ++ [Sleep seconds])
    (time_sleep seconds (world s)).

(** The message of [logger.error] in the handler. *)
Definition failure_message (attempt_no retries : Z) (e : Py.exn) : string :=
  "Attempt " ++ Py.str_int attempt_no ++ "/" ++ Py.str_int retries
  ++ " failed: " ++ Py.str_exn e.

(** The [except Exception as e] handler up to its [if]: what is left of the
    session after the error is logged. *)
Definition handler (attempt_no retries : Z) (e : Py.exn) (s : Session World)
  : Session World :=
  emit (Log ERROR (failure_message attempt_no retries e)) s.

(** [for attempt in attempts: try: ... except Exception: ...].  The result is
    what the function returns: [Some true], [Some false], or [None] when the
    loop runs out and the function falls off its end. *)
Fixpoint retry_loop (local_path remote_path : string) (verify : bool)
  (retries : Z) (attempts : list Z) (s : Session World)
  : option bool * Session World :=
  match attempts with
  | [] => (None, s)
  | attempt_no :: rest =>
      match attempt local_path remote_path verify s with
      | (inr _, s1) => (Some true, s1)
      | (inl e, s1) =>
          let s2 := handler attempt_no retries e s1 in
          if attempt_no =? retries
          then (Some false, emit (Log CRITICAL "Max retries exceeded") s2)
          else retry_loop local_path remote_path verify retries rest
                 (sleep (2 ^ attempt_no) s2)
      end
  end.

(** [secure_transfer(local_path, remote_path, verify=True, retries=3)] *)
Definition secure_transfer (local_path remote_path : string) (verify : bool)
  (retries : Z) (s : Session World) : option bool * Session World :=
  retry_loop local_path remote_path verify retries
    (Py.range 1 (retries + 1)) s.

(** The attempts a call makes, as the loop makes them: the session each
    starts from and how its [try] block ends. *)
Fixpoint attempts_made (local_path remote_path : string) (verify : bool)
  (retries : Z) (attempts : list Z) (s : Session World)
  : list (Session World * Py.result unit) :=
  match attempts with
  | [] => []
  | attempt_no :: rest =>
      match attempt local_path remote_path verify s with
      | (inr _, _) => [(s, inr tt)]
      | (inl e, s1) =>
          (s, inl e) ::
          (if attempt_no =? retries then []
           else attempts_made local_path remote_path verify retries rest
                  (sleep (2 ^ attempt_no) (handler attempt_no retries e s1)))
      end
  end.

(** The interval [duration_sec] covers, for an attempt started in session
    [s]: from the clock reading taken first, before the local digest is
    computed, to the reading taken when [put] has returned. *)
Definition timed_from_attempt_start (local_path remote_path : string)
  (s : Session World) (m : TransferMetrics) : Prop :=
  let w1 := snd (time_time (world s)) in
  let w2 := snd (read_file local_path w1) in
  let w3 := snd (scp_put local_path remote_path w2) in
  duration_sec m = (fst (time_time w3) - fst (time_time (world s)))%float.

(** The interval of the copy alone: from a reading taken once the local
    digest is there to the reading taken when [put] has returned. *)
Definition timed_from_put_start (local_path remote_path : string)
  (s : Session World) (m : TransferMetrics) : Prop :=
  let w1 := snd (time_time (world s)) in
  let w2 := snd (read_file local_path w1) in
  let w3 := snd (scp_put local_path remote_path w2) in
  duration_sec m = (fst (time_time w3) - fst (time_time w2))%float.

(** [throughput_mbps] is [size_bytes * 8 / (duration_sec * 1_000_000)], a
    division that did not raise. *)
Definition throughput_derived (m : TransferMetrics) : Prop :=
  Py.int_div_float (size_bytes m * 8)
    (duration_sec m * Py.float_of_int 1000000)%float
  = inr (throughput_mbps m).

(** What the handler leaves in the log for the attempts [k], [k+1], ... that
    raised [es]: an error line each, then a sleep of [2^k] seconds, or the
    critical line after the last allowed attempt. *)
Fixpoint failure_events (retries k : Z) (es : list Py.exn) : list event :=
  match es with
  | [] => []
  | e :: rest =>
      Log ERROR (failure_message k retries e) ::
      (if k =? retries then [Log CRITICAL "Max retries exceeded"]
       else Sleep (2 ^ k) :: failure_events retries (k + 1) rest)
  end.

End Transfer.

(** ** numpy and scipy *)

Module Np.

(** Modelled from the spec: [numpy] is a library the program imports, not
    part of its sources.  [np.sum] adds the samples from left to right,
    starting from zero. *)
Definition sum (xs : list float) : float :=
  fold_left PrimFloat.add xs 0%float.

(** Modelled from the spec: [np.mean], the sum of the samples divided by
    their number. *)
Definition mean (xs : list float) : float :=
  (sum xs / Py.float_of_int (Z.of_nat (List.length xs)))%float.

(** Modelled from the spec: [np.var] with its default [ddof = 0], the mean of
    the squared deviations from the mean (divide by N, not N-1). *)
Definition var (xs : list float) : float :=
  let m := mean xs in
  (sum (map (fun x => (x - m) * (x - m)) xs)
   / Py.float_of_int (Z.of_nat (List.length xs)))%float.

(** Modelled from the spec: [np.std], the population standard deviation, the
    square root of [np.var]. *)
Definition std (xs : list float) : float := PrimFloat.sqrt (var xs).

End Np.

(** ** [SixSigmaAnalyzer] *)

(** [SixSigmaAnalyzer(data)]: the object holds [np.array(data)]. *)
Record SixSigmaAnalyzer : Type := mkSixSigmaAnalyzer {
  data : list float
}.

(** [len(self.data)] *)
Definition len (self : SixSigmaAnalyzer) : Z :=
  Z.of_nat (List.length (data self)).

(** [calculate_cpk(usl, lsl)] *)
Definition calculate_cpk (self : SixSigmaAnalyzer) (usl lsl : float) : float :=
  if len self <? 2 then 0%float
  else
    let std := Np.std (data self) in
    let mean := Np.mean (data self) in
    Py.min ((usl - mean) / (3 * std))%float ((mean - lsl) / (3 * std))%float.

(** The [min] of the specification, to compare [Py.min] with: [r] is the
    minimum of [a] and [b] when it is one of them and is below both for the
    order of the floats. *)
Definition minimum_of (a b r : float) : Prop :=
  (r = a \/ r = b) /\ PrimFloat.leb r a = true /\ PrimFloat.leb r b = true.

(** [control_chart()]: a dictionary, empty or of three limits. *)
Definition control_chart (self : SixSigmaAnalyzer) : list (string * float) :=
  if len self <? 2 then []
  else
    let std := Np.std (data self) in
    let mean := Np.mean (data self) in
    [ ("upper_control_limit", (mean + 3 * std)%float);
      ("lower_control_limit", (mean - 3 * std)%float);
      ("mean", mean) ].

(** [sum(1 for x in self.data if x < 10)] *)
Definition defects (self : SixSigmaAnalyzer) : Z :=
  Py.sum (map (fun _ => 1) (filter (fun x => PrimFloat.ltb x 10%float) (data self))).

(** [defects / len(self.data)] *)
Definition defect_rate (self : SixSigmaAnalyzer) : float :=
  Py.int_truediv (defects self) (len self).

Section Sigma.

(** [scipy.stats.norm.ppf], the quantile function of the standard normal
    distribution: a library function, taken as it is. *)
Variable norm_ppf : float -> float.

(** [calculate_sigma_level()] *)
Definition calculate_sigma_level (self : SixSigmaAnalyzer) : float :=
  if len self <? 2 then 0%float
  else
    if PrimFloat.leb 1%float (defect_rate self) then 0%float
    else (norm_ppf (1 - defect_rate self) + 1.5)%float.

(** [generate_quality_report()]: it reads [self.metrics] and nothing else. *)
Definition generate_quality_report {World : Type} (self : Session World)
  : Py.value :=
  let throughputs := map throughput_mbps (metrics self) in
  match throughputs with
  | [] => Py.VDict []
  | _ =>
      let analyzer := mkSixSigmaAnalyzer throughputs in
      Py.VDict
        [ ("throughput_stats",
           Py.VDict
             [ ("mean", Py.VFloat (Np.mean throughputs));
               ("std_dev", Py.VFloat (Np.std throughputs));
               ("cpk", Py.VFloat (calculate_cpk analyzer 100%float 10%float));
               ("sigma_level", Py.VFloat (calculate_sigma_level analyzer)) ]);
          ("transfer_metrics", Py.VList (map vars (metrics self))) ]
  end.

End Sigma.

(** ** A simulated world

    A clock that the file reads, the copies and the sleeps advance, one local
    file, and a channel whose coming copies are scripted.  It instantiates the
    collaborators for concrete runs. *)

Module Sim.

Record world : Type := mkWorld {
  clock : float;
  (** the bytes of the local file, if there is one *)
  local_file : option (list byte);
  (** how the copies to come end, [true] for a clean one; with none left the
      channel is down for good *)
  puts : list bool;
  (** what the remote [sha256sum] prints *)
  remote_stdout : list byte;
  (** how long reading the local file and copying it take *)
  read_secs : float;
  put_secs : float
}.

Definition tick (d : float) (w : world) : world :=
  mkWorld (clock w + d)%float (local_file w) (puts w) (remote_stdout w)
    (read_secs w) (put_secs w).

Definition read (w : world) : Py.result (list byte) * world :=
  (match local_file w with
   | Some bs => inr bs
   | None => inl (Py.OSError "No such file or directory")
   end,
   tick (read_secs w) w).

Definition put (w : world) : Py.result unit * world :=
  let w' := tick (put_secs w) w in
  match puts w with
  | true :: rest =>
      (inr tt,
       mkWorld (clock w') (local_file w) rest (remote_stdout w)
         (read_secs w) (put_secs w))
  | false :: rest =>
      (inl (Py.SCPException "Connection lost"),
       mkWorld (clock w') (local_file w) rest (remote_stdout w)
         (read_secs w) (put_secs w))
  | [] => (inl (Py.SCPException "Connection lost"), w')
  end.

Definition stat (w : world) : Py.result Z * world :=
  (match local_file w with
   | Some bs => inr (Z.of_nat (List.length bs))
   | None => inl (Py.OSError "No such file or directory")
   end,
   w).

(** The digest of the simulation is the content itself. *)
#[global] Instance collaborators : Collaborators world := {|
  time_time := fun w => (clock w, w);
  time_strftime := fun w => ("2024-01-01 00:00:00", w);
  time_sleep := fun seconds w => tick (Py.float_of_int seconds) w;
  read_file := fun _ w => read w;
  sha256_hexdigest := string_of_list_byte;
  scp_put := fun _ _ w => put w;
  ssh_exec_command := fun _ w => (inr (remote_stdout w), w);
  stat_st_size := fun _ w => stat w
|}.

(** A file of four bytes, [abcd]; the remote command prints its digest and
    its path. *)
Definition content : list byte := [x61; x62; x63; x64].

Definition stdout : list byte :=
  content ++ [x20; x20; x2f; x74; x6d; x70; x2f; x66; x0a].

(** A session with nothing recorded yet, at time 100, where reading the file
    takes 4 seconds and a copy 1 second. *)
Definition start (outcomes : list bool) : Session world :=
  mkSession [] []
    (mkWorld 100%float (Some content) outcomes stdout 4%float 1%float).

End Sim.

(** A world whose channel is down for good: a clock, and a copy that always
    fails. *)
Module Down.

#[global] Instance collaborators : Collaborators float := {|
  time_time := fun w => (w, w);
  time_strftime := fun w => ("2024-01-01 00:00:00", w);
  time_sleep := fun seconds w => (w + Py.float_of_int seconds)%float;
  read_file := fun _ w => (inr [], w);
  sha256_hexdigest := string_of_list_byte;
  scp_put := fun _ _ w => (inl (Py.SCPException "Connection lost"), w);
  ssh_exec_command := fun _ w => (inl (Py.SSHException "No session"), w);
  stat_st_size := fun _ w => (inr 0, w)
|}.

End Down.

(** A world whose clock stands still: every call succeeds at once, and every
    reading of the clock is the same. *)
Module Frozen.

#[global] Instance collaborators : Collaborators unit := {|
  time_time := fun w => (100%float, w);
  time_strftime := fun w => ("2024-01-01 00:00:00", w);
  time_sleep := fun _ w => w;
  read_file := fun _ w => (inr Sim.content, w);
  sha256_hexdigest := string_of_list_byte;
  scp_put := fun _ _ w => (inr tt, w);
  ssh_exec_command := fun _ w => (inr Sim.stdout, w);
  stat_st_size := fun _ w => (inr 4, w)
|}.

End Frozen.

(** ** Samples and sessions of the scenarios *)

(** The samples of the scenario of the specification. *)
Definition scenario : SixSigmaAnalyzer :=
  mkSixSigmaAnalyzer [5; 8; 12; 9; 11]%float.

(** A session that has recorded one transfer. *)
Definition one_record : Session unit :=
  mkSession
    [ {| filename := "/f"; size_bytes := 1000000; duration_sec := 1%float;
         throughput_mbps := 8%float; sha256_checksum := "abcd";
         timestamp := "2024-01-01 00:00:00" |} ]
    [] tt.

(** ** The control chart and the example session *)

Module Plt.

(** The calls [plot_control_chart] makes to [matplotlib.pyplot], with the
    arguments the source gives them. *)
Inductive command : Type :=
| figure (width height : Z)
| plot (ys : list float) (fmt label : string)
| axhline (y : float) (color : string) (linestyle : option string)
    (label : string)
| title (text : string)
| xlabel (text : string)
| ylabel (text : string)
| legend
| grid (on : bool)
| savefig (path : string)
| show.

End Plt.

(** What [d[key]] raises when the key is missing. *)
Inductive key_error : Type := KeyError (key : string).

(** [d[key]] *)
Definition dict_index {A : Type} (key : string) (d : list (string * A))
  : key_error + A :=
  match Py.dict_get key d with
  | Some v => inr v
  | None => inl (KeyError key)
  end.

(** [if save_path:] holds of a string that is not empty; [None] and the
    empty string are falsy. *)
Definition truthy (save_path : option string) : bool :=
  match save_path with
  | Some (String _ _) => true
  | _ => false
  end.

(** [plot_control_chart(save_path=None)]: how the call ends, and what it has
    asked of [pyplot] by then, in order.  It reads [self.metrics] only. *)
Definition plot_control_chart {World : Type} (self : Session World)
  (save_path : option string) : (key_error + unit) * list Plt.command :=
  let throughputs := map throughput_mbps (metrics self) in
  match throughputs with
  | [] => (inr tt, [])
  | _ =>
      let analyzer := mkSixSigmaAnalyzer throughputs in
      let limits := control_chart analyzer in
      let drawn :=
        [ Plt.figure 12 6; Plt.plot throughputs "b-" "Throughput (Mbps)" ] in
      match dict_index "upper_control_limit" limits with
      | inl e => (inl e, drawn)
      | inr ucl =>
          let drawn := (drawn ++ [Plt.axhline ucl "r" (Some "--") "UCL"])%list in
          match dict_index "lower_control_limit" limits with
          | inl e => (inl e, drawn)
          | inr lcl =>
              (inr tt,
               (drawn ++
                [ Plt.axhline lcl "r" (Some "--") "LCL";
                  Plt.axhline (Np.mean throughputs) "g" None "Mean";
                  Plt.title "SCP Transfer Throughput Control Chart";
                  Plt.xlabel "Transfer #";
                  Plt.ylabel "Throughput (Mbps)";
                  Plt.legend;
                  Plt.grid true;
                  match save_path with
                  | Some path => if truthy save_path then Plt.savefig path
                                 else Plt.show
                  | None => Plt.show
                  end ])%list)
          end
      end
  end.

Section Example.

Context {World : Type} {collaborators : Collaborators World}.

(** [for local, remote in files_to_transfer: client.secure_transfer(local,
    remote)], with the defaults [verify=True] and [retries=3]; what each call
    returned is kept for the statements, the source drops it. *)
Fixpoint transfer_files (files : list (string * string)) (s : Session World)
  : list (option bool) * Session World :=
  match files with
  | [] => ([], s)
  | (local, remote) :: rest =>
      let (r, s1) := secure_transfer local remote true 3 s in
      let (rs, s2) := transfer_files rest s1 in
      (r :: rs, s2)
  end.

(** [scipy.stats.norm.ppf], as in [calculate_sigma_level]. *)
Variable norm_ppf : float -> float.

(** The body of the [with] block of the example: the transfers, then the
    report handed to [json.dump], then the chart saved to
    [throughput_chart.png]. *)
Definition example_usage (files : list (string * string)) (s : Session World)
  : Py.value * ((key_error + unit) * list Plt.command) * Session World :=
  let s' := snd (transfer_files files s) in
  (generate_quality_report norm_ppf s',
   plot_control_chart s' (Some "throughput_chart.png"),
   s').

End Example.

(** A call that returned [True]. *)
Definition succeeded (r : option bool) : bool :=
  match r with
  | Some true => true
  | _ => false
  end.

(** The collaborators [c] with another remote command runner. *)
Definition with_exec_command {World : Type} (c : Collaborators World)
  (exec : string -> World -> Py.result (list byte) * World)
  : Collaborators World :=
  {| time_time := time_time;
     time_strftime := time_strftime;
     time_sleep := time_sleep;
     read_file := read_file;
     sha256_hexdigest := sha256_hexdigest;
     scp_put := scp_put;
     ssh_exec_command := exec;
     stat_st_size := stat_st_size |}.

(** The worlds an attempt started in [s] goes through: after the first clock
    reading, after the file is read, after the copy, after the second
    reading. *)
Section Worlds.

Context {World : Type} {collaborators : Collaborators World}.

Variables (local_path remote_path : string).

Definition world_read (s : Session World) : World :=
  snd (time_time (world s)).

Definition world_put (s : Session World) : World :=
  snd (read_file local_path (world_read s)).

Definition world_timed (s : Session World) : World :=
  snd (scp_put local_path remote_path (world_put s)).

Definition world_verify (s : Session World) : World :=
  snd (time_time (world_timed s)).

End Worlds.

(** A float that is no number or is infinite. *)
Definition not_finite (x : float) : bool :=
  PrimFloat.is_nan x || Py.is_infinite x.

(** * Properties *)

Local Open Scope list_scope.

(** ** Python's [range] *)

Lemma range_nil (lo hi : Z) : hi <= lo -> Py.range lo hi = [].
Proof.
  intros Hle. unfold Py.range.
  replace (Z.to_nat (hi - lo)) with O by lia. reflexivity.
Qed.

Lemma range_cons (lo hi : Z) :
  lo < hi -> Py.range lo hi = lo :: Py.range (lo + 1) hi.
Proof.
  intros Hlt. unfold Py.range.
  replace (Z.to_nat (hi - lo)) with (S (Z.to_nat (hi - (lo + 1)))) by lia.
  cbn [seq map]. f_equal; [lia|].
  rewrite <- seq_shift, map_map.
  apply map_ext. intros i. lia.
Qed.


Lemma range_In (lo hi k : Z) : In k (Py.range lo hi) <-> lo <= k < hi.
Proof.
  unfold Py.range. rewrite in_map_iff. split.
  - intros (i & <- & Hi). apply in_seq in Hi. lia.
  - intros Hk. exists (Z.to_nat (k - lo)). split; [lia|].
    apply in_seq. lia.
Qed.

(** ** Statements, one at a time *)

Section Statements.

Context {World : Type}.

Lemma bind_inr {A B : Type} (c : M World A) (k : A -> M World B)
  (s s' : Session World) (b : B) :
  bind c k s = (inr b, s') ->
  exists a s1, c s = (inr a, s1) /\ k a s1 = (inr b, s').
Proof.
  unfold bind. destruct (c s) as [[e | a] s1]; intros H.
  - discriminate.
  - now exists a, s1.
Qed.

Lemma bind_inl {A B : Type} (c : M World A) (k : A -> M World B)
  (s s' : Session World) (e : Py.exn) :
  bind c k s = (inl e, s') ->
  c s = (inl e, s') \/ exists a s1, c s = (inr a, s1) /\ k a s1 = (inl e, s').
Proof.
  unfold bind. destruct (c s) as [[e1 | a] s1]; intros H.
  - left. inversion H. reflexivity.
  - right. now exists a, s1.
Qed.

Lemma call_inv {A : Type} (f : World -> A * World) (s s' : Session World)
  (r : Py.result A) :
  call f s = (r, s') ->
  r = inr (fst (f (world s))) /\
  s' = mkSession (metrics s) (trace s) (snd (f (world s))).
Proof.
  unfold call. destruct (f (world s)) as [a w]. cbn [fst snd]. intros H.
  inversion H. now split.
Qed.

Lemma call_inr {A : Type} (f : World -> A * World) (s s' : Session World)
  (a : A) :
  call f s = (inr a, s') ->
  a = fst (f (world s)) /\
  s' = mkSession (metrics s) (trace s) (snd (f (world s))).
Proof.
  intros H. apply call_inv in H as [E ->]. split; [congruence | reflexivity].
Qed.

Lemma try_call_inv {A : Type} (f : World -> Py.result A * World)
  (s s' : Session World) (r : Py.result A) :
  try_call f s = (r, s') ->
  r = fst (f (world s)) /\
  s' = mkSession (metrics s) (trace s) (snd (f (world s))).
Proof.
  unfold try_call. destruct (f (world s)) as [a w]. cbn [fst snd]. intros H.
  inversion H. now split.
Qed.

Lemma ret_inr {A : Type} (a b : A) (s s' : Session World) :
  ret a s = (inr b, s') -> b = a /\ s' = s.
Proof. unfold ret. intros H. inversion H. now split. Qed.

Lemma eval_inr {A : Type} (x : Py.result A) (a : A) (s s' : Session World) :
  eval x s = (inr a, s') -> x = inr a /\ s' = s.
Proof. unfold eval. intros H. inversion H. now split. Qed.

Lemma metrics_append_inv (m : TransferMetrics) (s s' : Session World)
  (r : Py.result unit) :
  metrics_append m s = (r, s') ->
  r = inr tt /\ s' = mkSession (metrics s ++ [m]) (trace s) (world s).
Proof. unfold metrics_append. intros H. inversion H. now split. Qed.

Lemma logger_inv (lvl : level) (msg : string) (s s' : Session World)
  (r : Py.result unit) :
  logger lvl msg s = (r, s') -> r = inr tt /\ s' = emit (Log lvl msg) s.
Proof. unfold logger. intros H. inversion H. now split. Qed.

Lemma quiet_ret {A : Type} (a : A) : quiet (@ret World A a).
Proof. intros s r s' H. inversion H. now split. Qed.

Lemma quiet_raise {A : Type} (e : Py.exn) : quiet (@raise World A e).
Proof. intros s r s' H. inversion H. now split. Qed.

Lemma quiet_eval {A : Type} (x : Py.result A) : quiet (@eval World A x).
Proof. intros s r s' H. inversion H. now split. Qed.

Lemma quiet_call {A : Type} (f : World -> A * World) : quiet (call f).
Proof.
  intros s r s' H. apply call_inv in H as [_ ->]. now split.
Qed.

Lemma quiet_try_call {A : Type} (f : World -> Py.result A * World) :
  quiet (try_call f).
Proof.
  intros s r s' H. apply try_call_inv in H as [_ ->]. now split.
Qed.

Lemma quiet_bind {A B : Type} (c : M World A) (k : A -> M World B) :
  quiet c -> (forall a, quiet (k a)) -> quiet (bind c k).
Proof.
  intros Hc Hk s r s' H. unfold bind in H.
  destruct (c s) as [[e | a] s1] eqn:E.
  - inversion H; subst. eapply Hc; eassumption.
  - apply Hc in E as [Em Et]. apply Hk in H as [Hm Ht].
    split; congruence.
Qed.

Lemma quiet_if {A : Type} (b : bool) (c1 c2 : M World A) :
  quiet c1 -> quiet c2 -> quiet (if b then c1 else c2).
Proof. now destruct b. Qed.

Lemma quiet_on_failure_bind {A B : Type} (c : M World A) (k : A -> M World B) :
  quiet c -> (forall a, quiet_on_failure (k a)) -> quiet_on_failure (bind c k).
Proof.
  intros Hc Hk s e s' H. apply bind_inl in H as [H | (a & s1 & E & H)].
  - eapply Hc; eassumption.
  - apply Hc in E as [Em Et]. apply Hk in H as [Hm Ht].
    split; congruence.
Qed.

End Statements.

Create HintDb quiet.

#[local] Hint Resolve quiet_ret quiet_raise quiet_eval quiet_call
  quiet_try_call quiet_bind quiet_if : quiet.

(** ** One attempt *)

Section TransferFacts.

Context {World : Type} {collaborators : Collaborators World}.

Variables (local_path remote_path : string) (verify : bool).

Lemma quiet_calculate_sha256 (path : string) : quiet (_calculate_sha256 path).
Proof. unfold _calculate_sha256. auto with quiet. Qed.

Lemma quiet_get_remote_sha256 (path : string) :
  quiet (_get_remote_sha256 path).
Proof. unfold _get_remote_sha256. auto 6 with quiet. Qed.

(** A failed attempt leaves [self.metrics] and the log as they were. *)
Lemma attempt_failure (s s' : Session World) (e : Py.exn) :
  attempt local_path remote_path verify s = (inl e, s') ->
  metrics s' = metrics s /\ trace s' = trace s.
Proof.
  revert s e s'. change (quiet_on_failure (attempt local_path remote_path verify)).
  unfold attempt.
  repeat (apply quiet_on_failure_bind;
          [ solve [ auto 8 using quiet_calculate_sha256,
                      quiet_get_remote_sha256 with quiet ]
          | intros ? ]).
  intros s e s' H. unfold bind, metrics_append, logger in H.
  cbv beta iota in H. discriminate.
Qed.

(** Peels the first statement off a sequence that ended normally. *)
Ltac first_statement H a s1 E :=
  apply bind_inr in H as (a & s1 & E & H); cbv beta zeta in H.

(** A clean attempt appends one record and logs one line. *)
Lemma attempt_success (s s' : Session World) (u : unit) :
  attempt local_path remote_path verify s = (inr u, s') ->
  exists m,
    metrics s' = (metrics s ++ [m])%list /\
    trace s' =
      (trace s ++ [Log INFO (success_message local_path remote_path)])%list /\
    filename m = local_path /\
    timed_from_attempt_start local_path remote_path s m /\
    throughput_derived m.
Proof.
  intros H. unfold attempt in H.
  first_statement H t0 s1 E1. apply call_inr in E1 as [-> ->].
  first_statement H h s2 E2. unfold _calculate_sha256 in E2.
  first_statement E2 bs s2' E2'. apply try_call_inv in E2' as [Ebs ->].
  apply ret_inr in E2 as [-> ->].
  first_statement H u3 s3 E3. apply try_call_inv in E3 as [Eput ->].
  first_statement H t1 s4 E4. apply call_inr in E4 as [-> ->].
  first_statement H u5 s5 E5.
  assert (Hq : metrics s5 = metrics s /\ trace s5 = trace s).
  { eapply (quiet_if verify) in E5;
      [ exact E5
      | auto 8 using quiet_get_remote_sha256 with quiet
      | auto with quiet ]. }
  destruct Hq as [Hm5 Ht5].
  first_statement H size s6 E6. apply try_call_inv in E6 as [Esize ->].
  first_statement H thr s7 E7. apply eval_inr in E7 as [Ethr ->].
  first_statement H stamp s8 E8. apply call_inr in E8 as [-> ->].
  first_statement H u9 s9 E9. apply metrics_append_inv in E9 as [_ ->].
  apply logger_inv in H as [_ ->].
  cbn [metrics trace world emit] in *.
  eexists. unfold emit. cbn [metrics trace world].
  repeat split.
  - rewrite Hm5. reflexivity.
  - rewrite Ht5. reflexivity.
  - reflexivity.
  - reflexivity.
  - exact Ethr.
Qed.

End TransferFacts.

(** ** The retry loop *)

Lemma sleeps_app (tr1 tr2 : list event) :
  sleeps (tr1 ++ tr2) = sleeps tr1 ++ sleeps tr2.
Proof. unfold sleeps. apply flat_map_app. Qed.

Section LoopFacts.

Context {World : Type} {collaborators : Collaborators World}.

Variables (local_path remote_path : string) (verify : bool) (retries : Z).

#[local] Abbreviation loop :=
  (retry_loop local_path remote_path verify retries).
#[local] Abbreviation made :=
  (attempts_made local_path remote_path verify retries).

(** The loop returns a boolean as soon as [retries] is among the attempts. *)
Lemma loop_returns (attempts : list Z) (s : Session World) :
  In retries attempts -> exists b, fst (loop attempts s) = Some b.
Proof.
  revert s. induction attempts as [| k rest IH]; intros s Hin.
  - destruct Hin.
  - cbn [retry_loop].
    destruct (attempt local_path remote_path verify s) as [[e | u] s1].
    + destruct (k =? retries) eqn:Ek.
      * now exists false.
      * apply IH. destruct Hin as [-> | Hin]; [lia | exact Hin].
    + now exists true.
Qed.

(** Whatever the attempts, [True] comes with one record more and anything
    else with the records as they were. *)
Lemma loop_metrics (attempts : list Z) (s : Session World) :
  match fst (loop attempts s) with
  | Some true => exists m, metrics (snd (loop attempts s)) = metrics s ++ [m]
  | _ => metrics (snd (loop attempts s)) = metrics s
  end.
Proof.
  revert s. induction attempts as [| k rest IH]; intros s.
  - reflexivity.
  - cbn [retry_loop].
    destruct (attempt local_path remote_path verify s) as [[e | u] s1] eqn:E.
    + apply attempt_failure in E as [Em _].
      destruct (k =? retries).
      * cbn. exact Em.
      * specialize (IH (sleep (2 ^ k) (handler k retries e s1))).
        cbn [sleep handler emit metrics] in IH.
        rewrite Em in IH. exact IH.
    + apply attempt_success in E as (m & Em & _).
      cbn. now exists m.
Qed.

(** The sleeps among the events of [n + 1] failed attempts that end with
    attempt [retries]: [2^k], [2^(k+1)], ..., [2^(retries-1)]. *)
Lemma sleeps_failure_events (es : list Py.exn) (k : Z) :
  k <= retries ->
  List.length es = S (Z.to_nat (retries - k)) ->
  sleeps (failure_events retries k es) = map (Z.pow 2) (Py.range k retries).
Proof.
  revert k. induction es as [| e rest IH]; intros k Hk Hlen.
  - discriminate.
  - cbn [failure_events]. destruct (k =? retries) eqn:Ek.
    + apply Z.eqb_eq in Ek. subst k. rewrite range_nil by lia. reflexivity.
    + apply Z.eqb_neq in Ek. rewrite range_cons by lia.
      cbn [sleeps flat_map map app]. f_equal.
      apply IH; [lia |].
      cbn [List.length] in Hlen. lia.
Qed.

(** When every attempt made fails, the loop over [k .. retries] makes them
    all, logs and sleeps as [failure_events] says, and returns [False]. *)
Lemma loop_all_fail (n : nat) :
  forall (k : Z) (s : Session World),
    k <= retries ->
    Z.to_nat (retries - k) = n ->
    forallb failed (made (Py.range k (retries + 1)) s) = true ->
    exists es,
      List.length es = S n /\
      map snd (made (Py.range k (retries + 1)) s) = map inl es /\
      fst (loop (Py.range k (retries + 1)) s) = Some false /\
      trace (snd (loop (Py.range k (retries + 1)) s))
      = trace s ++ failure_events retries k es.
Proof.
  induction n as [| n IH]; intros k s Hk Hn Hall;
    rewrite range_cons in * by lia;
    cbn [retry_loop attempts_made] in *;
    destruct (attempt local_path remote_path verify s) as [[e | u] s1] eqn:E;
    try discriminate;
    apply attempt_failure in E as [_ Et].
  - assert (k = retries) as -> by lia.
    rewrite Z.eqb_refl in *.
    exists [e]. cbn [failure_events]. rewrite Z.eqb_refl.
    repeat split. cbn. rewrite Et. now rewrite <- app_assoc.
  - assert (Ek : (k =? retries) = false) by (apply Z.eqb_neq; lia).
    rewrite Ek in *. cbn [forallb failed snd andb] in Hall.
    destruct (IH (k + 1) (sleep (2 ^ k) (handler k retries e s1)))
      as (es & Hlen & Hmade & Hret & Htr); [lia | lia | exact Hall |].
    exists (e :: es). cbn [failure_events List.length map snd].
    rewrite Ek, Hmade, Hret, Htr.
    repeat split; [now rewrite Hlen |].
    cbn [sleep handler emit trace]. rewrite Et.
    now rewrite <- !app_assoc.
Qed.

(** When the loop returns [True], the last attempt made is the clean one and
    those before it failed; the record appended is the one of that attempt:
    its duration runs from the start of that attempt. *)
Lemma loop_success (attempts : list Z) :
  forall s : Session World,
    fst (loop attempts s) = Some true ->
    exists earlier s0 m,
      made attempts s = earlier ++ [(s0, inr tt)] /\
      forallb failed earlier = true /\
      metrics s0 = metrics s /\
      metrics (snd (loop attempts s)) = metrics s ++ [m] /\
      timed_from_attempt_start local_path remote_path s0 m /\
      throughput_derived m.
Proof.
  induction attempts as [| k rest IH]; intros s Hret.
  - discriminate.
  - cbn [retry_loop attempts_made] in *.
    destruct (attempt local_path remote_path verify s) as [[e | u] s1] eqn:E.
    + apply attempt_failure in E as [Em _].
      destruct (k =? retries); [discriminate |].
      destruct (IH _ Hret) as (earlier & s0 & m & Hmade & Hf & Hm0 & Hm & Ht & Hd).
      exists ((s, inl e) :: earlier), s0, m.
      rewrite Hmade. cbn [sleep handler emit metrics] in *.
      repeat split; try assumption; congruence.
    + apply attempt_success in E as (m & Hm & _ & _ & Ht & Hd).
      exists [], s, m. destruct u. now repeat split.
Qed.

End LoopFacts.

(** ** Floats apart *)

(** Two floats a test tells apart are different. *)
Lemma float_neq (test : float -> bool) (a b : float) :
  test a <> test b -> a <> b.
Proof. intros Hne Heq. apply Hne. now rewrite Heq. Qed.

(** What [throughput_derived] says, as the formula of the record. *)
Lemma throughput_formula (m : TransferMetrics) :
  throughput_derived m ->
  throughput_mbps m
  = (Py.float_of_int (size_bytes m * 8)
     / (duration_sec m * Py.float_of_int 1000000))%float /\
  Py.is_zero (duration_sec m * Py.float_of_int 1000000)%float = false.
Proof.
  unfold throughput_derived, Py.int_div_float.
  destruct (Py.is_infinite _); [discriminate |].
  destruct (Py.is_zero _); [discriminate |].
  intros H. split; [congruence | reflexivity].
Qed.

(** ** [secure_transfer] *)

(** C10. With [retries <= 0] the loop body never runs: the function returns
    [None], not a boolean, and leaves the session as it was, so no record is
    appended.  With [retries >= 1] it returns a boolean. *)
Theorem secure_transfer_returns_bool_iff_retries_positive
  {World : Type} {collaborators : Collaborators World}
  (local_path remote_path : string) (verify : bool) (retries : Z)
  (s : Session World) :
  (retries <= 0 ->
   secure_transfer local_path remote_path verify retries s = (None, s)) /\
  (1 <= retries ->
   exists b,
     fst (secure_transfer local_path remote_path verify retries s) = Some b).
Proof.
  unfold secure_transfer. split; intros Hretries.
  - rewrite range_nil by lia. reflexivity.
  - apply loop_returns. apply range_In. lia.
Qed.

Lemma secure_transfer_returns_bool_iff_retries_positive_witness :
  (0 <= 0 /\
   secure_transfer "/f" "/tmp/f" true 0 (Sim.start [true])
   = (None, Sim.start [true])) /\
  (1 <= 2 /\
   exists b,
     fst (secure_transfer "/f" "/tmp/f" true 2 (Sim.start [true])) = Some b).
Proof.
  split; split; try lia.
  - apply (secure_transfer_returns_bool_iff_retries_positive
             "/f" "/tmp/f" true 0 (Sim.start [true])). lia.
  - apply (secure_transfer_returns_bool_iff_retries_positive
             "/f" "/tmp/f" true 2 (Sim.start [true])). lia.
Defined.

(** C1. A call with [retries >= 1] returns a boolean; when it returns [True]
    exactly one record was appended to [self.metrics] during the call, and
    when it returns [False] the list is as it was. *)
Theorem secure_transfer_appends_one_record_or_none
  {World : Type} {collaborators : Collaborators World}
  (local_path remote_path : string) (verify : bool) (retries : Z)
  (s : Session World) :
  1 <= retries ->
  match fst (secure_transfer local_path remote_path verify retries s) with
  | Some true =>
      exists m,
        metrics (snd (secure_transfer local_path remote_path verify retries s))
        = metrics s ++ [m]
  | Some false =>
      metrics (snd (secure_transfer local_path remote_path verify retries s))
      = metrics s
  | None => False
  end.
Proof.
  intros Hretries. unfold secure_transfer.
  pose proof (loop_metrics local_path remote_path verify retries
                (Py.range 1 (retries + 1)) s) as Hm.
  destruct (loop_returns local_path remote_path verify retries
              (Py.range 1 (retries + 1)) s) as [b Hb].
  { apply range_In. lia. }
  rewrite Hb in *. destruct b; exact Hm.
Qed.

Lemma secure_transfer_appends_one_record_or_none_witness :
  1 <= 3 /\
  match fst (secure_transfer "/f" "/tmp/f" true 3 (Sim.start [false; true])) with
  | Some true =>
      exists m,
        metrics (snd (secure_transfer "/f" "/tmp/f" true 3
                        (Sim.start [false; true])))
        = metrics (Sim.start [false; true]) ++ [m]
  | Some false =>
      metrics (snd (secure_transfer "/f" "/tmp/f" true 3
                      (Sim.start [false; true])))
      = metrics (Sim.start [false; true])
  | None => False
  end.
Proof.
  split; [lia |].
  apply (secure_transfer_appends_one_record_or_none
           "/f" "/tmp/f" true 3 (Sim.start [false; true])). lia.
Defined.



(** What the code records: when a call returns [True], the record it
    appended belongs to the last attempt made, the only clean one: its
    [duration_sec] is the clock reading taken when [put] has returned minus
    the reading taken at the start of that attempt, before the local digest
    is computed, so the digest time of that attempt is counted and the
    attempts and sleeps before it are not; and its [throughput_mbps] is
    [size_bytes * 8 / (duration_sec * 1_000_000)]. *)
Theorem duration_covers_the_successful_attempt
  {World : Type} {collaborators : Collaborators World}
  (local_path remote_path : string) (verify : bool) (retries : Z)
  (s : Session World) :
  fst (secure_transfer local_path remote_path verify retries s) = Some true ->
  exists earlier s0 m,
    attempts_made local_path remote_path verify retries
      (Py.range 1 (retries + 1)) s
    = earlier ++ [(s0, inr tt)] /\
    forallb failed earlier = true /\
    metrics (snd (secure_transfer local_path remote_path verify retries s))
    = metrics s ++ [m] /\
    timed_from_attempt_start local_path remote_path s0 m /\
    throughput_mbps m
    = (Py.float_of_int (size_bytes m * 8)
       / (duration_sec m * Py.float_of_int 1000000))%float.
Proof.
  intros Hret. unfold secure_transfer in *.
  destruct (loop_success local_path remote_path verify retries _ s Hret)
    as (earlier & s0 & m & Hmade & Hf & _ & Hm & Ht & Hd).
  exists earlier, s0, m.
  apply throughput_formula in Hd as [Hd _].
  now repeat split.
Qed.

Lemma duration_covers_the_successful_attempt_witness :
  fst (secure_transfer "/f" "/tmp/f" true 3 (Sim.start [false; true]))
  = Some true /\
  exists earlier s0 m,
    attempts_made "/f" "/tmp/f" true 3 (Py.range 1 (3 + 1))
      (Sim.start [false; true])
    = earlier ++ [(s0, inr tt)] /\
    forallb failed earlier = true /\
    metrics (snd (secure_transfer "/f" "/tmp/f" true 3
                    (Sim.start [false; true])))
    = metrics (Sim.start [false; true]) ++ [m] /\
    timed_from_attempt_start "/f" "/tmp/f" s0 m /\
    throughput_mbps m
    = (Py.float_of_int (size_bytes m * 8)
       / (duration_sec m * Py.float_of_int 1000000))%float.
Proof.
  assert (H : fst (secure_transfer "/f" "/tmp/f" true 3
                     (Sim.start [false; true])) = Some true)
    by (vm_compute; reflexivity).
  split; [exact H |].
  exact (duration_covers_the_successful_attempt
           "/f" "/tmp/f" true 3 (Sim.start [false; true]) H).
Defined.

(** C4 fails on the code.  The clock is read at the start of the attempt,
    before [_calculate_sha256], although the source announces the checksum
    as calculated before the transfer and names the duration
    [transfer_time].  In the simulated world reading the local file takes 4
    seconds and the copy 1 second: a transfer that succeeds at once records
    a duration of 5 seconds, not the second the copy took. *)
Theorem duration_includes_the_digest_time :
  fst (secure_transfer "/f" "/tmp/f" true 1 (Sim.start [true])) = Some true /\
  exists m,
    metrics (snd (secure_transfer "/f" "/tmp/f" true 1 (Sim.start [true])))
    = [m] /\
    duration_sec m = 5%float /\
    ~ timed_from_put_start "/f" "/tmp/f" (Sim.start [true]) m.
Proof.
  split; [vm_compute; reflexivity |].
  eexists. split; [vm_compute; reflexivity |].
  split; [reflexivity |].
  unfold timed_from_put_start. cbn [duration_sec].
  apply (float_neq (fun x => PrimFloat.eqb x 5%float)).
  vm_compute. discriminate.
Qed.

(** ** [SixSigmaAnalyzer] *)

Lemma sum_ones_from {A : Type} (xs : list A) (a : Z) :
  fold_left Z.add (map (fun _ => 1) xs) a = a + Z.of_nat (List.length xs).
Proof.
  revert a. induction xs as [| x xs IH]; intros a; cbn [map fold_left].
  - cbn. lia.
  - rewrite IH. cbn [List.length]. lia.
Qed.

(** The defects are the samples strictly below 10. *)
Lemma defects_count (self : SixSigmaAnalyzer) :
  defects self
  = Z.of_nat
      (List.length (filter (fun x => PrimFloat.ltb x 10%float) (data self))).
Proof. unfold defects, Py.sum. now rewrite sum_ones_from. Qed.

(** *** The order of the floats *)

Lemma SFcompare_refl (x : spec_float) :
  x <> S754_nan -> SFcompare x x = Some Eq.
Proof.
  destruct x as [s | s | | s m e]; intros H; cbn.
  - reflexivity.
  - now destruct s.
  - congruence.
  - rewrite Z.compare_refl, Pos.compare_cont_refl. now destruct s.
Qed.

Lemma SFcompare_swap (x y : spec_float) :
  SFcompare y x = option_map CompOpp (SFcompare x y).
Proof.
  destruct x as [s | s | | s m e], y as [s' | s' | | s' m' e']; cbn;
    try reflexivity; try (now destruct s); try (now destruct s');
    try (now destruct s, s').
  rewrite (Z.compare_antisym e e').
  destruct s, s'; cbn; try reflexivity;
    destruct (e ?= e'); cbn; try reflexivity;
    rewrite Pos.compare_cont_antisym; cbn; try reflexivity.
  now rewrite CompOpp_involutive.
Qed.

Lemma is_nan_false (x : float) :
  PrimFloat.is_nan x = false -> Prim2SF x <> S754_nan.
Proof.
  unfold PrimFloat.is_nan. rewrite eqb_spec. intros H E. rewrite E in H.
  discriminate.
Qed.

Lemma leb_refl (x : float) :
  PrimFloat.is_nan x = false -> PrimFloat.leb x x = true.
Proof.
  intros H. apply is_nan_false in H. rewrite leb_spec. unfold SFleb.
  now rewrite SFcompare_refl.
Qed.

Lemma ltb_leb (x y : float) :
  PrimFloat.ltb x y = true -> PrimFloat.leb x y = true.
Proof.
  rewrite ltb_spec, leb_spec. unfold SFltb, SFleb.
  now destruct (SFcompare (Prim2SF x) (Prim2SF y)) as [[| |] |].
Qed.

Lemma not_ltb_leb (x y : float) :
  PrimFloat.is_nan x = false -> PrimFloat.is_nan y = false ->
  PrimFloat.ltb y x = false -> PrimFloat.leb x y = true.
Proof.
  intros Hx Hy. apply is_nan_false in Hx, Hy.
  rewrite ltb_spec, leb_spec. unfold SFltb, SFleb.
  rewrite (SFcompare_swap (Prim2SF y) (Prim2SF x)).
  destruct (SFcompare (Prim2SF y) (Prim2SF x)) as [[| |] |] eqn:E; cbn;
    try reflexivity; try discriminate.
  intros _. destruct (Prim2SF x), (Prim2SF y); cbn in E; congruence.
Qed.

(** Python's [min] of two floats that are not NaN is their minimum. *)
Lemma min_is_the_minimum (a b : float) :
  PrimFloat.is_nan a = false -> PrimFloat.is_nan b = false ->
  minimum_of a b (Py.min a b).
Proof.
  intros Ha Hb. unfold minimum_of, Py.min.
  destruct (PrimFloat.ltb b a) eqn:E.
  - split; [now right |]. split; [now apply ltb_leb | now apply leb_refl].
  - split; [now left |]. split; [now apply leb_refl | now apply not_ltb_leb].
Qed.

(** C7. With fewer than two samples [calculate_cpk] returns the sentinel 0.0.
    With two or more, and for any limits, it returns the smaller of the two
    ratios [(usl - mean) / (3 * std)] and [(mean - lsl) / (3 * std)]: the
    second where it is strictly below the first, the first otherwise; where
    neither ratio is a NaN the result is their minimum, one of the two and
    below both.  [std] is the population standard deviation, which divides
    by the number of samples: of 40 and 60 it is 10, where dividing by one
    less gives 14.14, and of 2, 4, 4, 4, 5, 5, 7, 9 it is 2, not 2.14. *)
Theorem calculate_cpk_formula (self : SixSigmaAnalyzer) (usl lsl : float) :
  (len self < 2 -> calculate_cpk self usl lsl = 0%float) /\
  (2 <= len self ->
   (PrimFloat.ltb
      ((Np.mean (data self) - lsl) / (3 * Np.std (data self)))
      ((usl - Np.mean (data self)) / (3 * Np.std (data self))) = true ->
    calculate_cpk self usl lsl
    = ((Np.mean (data self) - lsl) / (3 * Np.std (data self)))%float) /\
   (PrimFloat.ltb
      ((Np.mean (data self) - lsl) / (3 * Np.std (data self)))
      ((usl - Np.mean (data self)) / (3 * Np.std (data self))) = false ->
    calculate_cpk self usl lsl
    = ((usl - Np.mean (data self)) / (3 * Np.std (data self)))%float) /\
   (PrimFloat.is_nan
      ((usl - Np.mean (data self)) / (3 * Np.std (data self))) = false ->
    PrimFloat.is_nan
      ((Np.mean (data self) - lsl) / (3 * Np.std (data self))) = false ->
    minimum_of
      ((usl - Np.mean (data self)) / (3 * Np.std (data self)))%float
      ((Np.mean (data self) - lsl) / (3 * Np.std (data self)))%float
      (calculate_cpk self usl lsl))) /\
  Np.mean [40; 60]%float = 50%float /\
  Np.std [40; 60]%float = 10%float /\
  Np.std [2; 4; 4; 4; 5; 5; 7; 9]%float = 2%float.
Proof.
  split; [| split; [| repeat split; vm_compute; reflexivity]].
  - intros Hlen. unfold calculate_cpk.
    destruct (Z.ltb_spec (len self) 2); [reflexivity | lia].
  - intros Hlen. unfold calculate_cpk.
    destruct (Z.ltb_spec (len self) 2); [lia |]. cbv zeta.
    split; [| split].
    + intros Hlt. unfold Py.min. now rewrite Hlt.
    + intros Hlt. unfold Py.min. now rewrite Hlt.
    + intros Hu Hl. now apply min_is_the_minimum.
Qed.

(** One sample; then the samples 40 and 60, of mean 50 and deviation 10:
    between the limits 10 and 100 the lower ratio, 40/30, is the smaller,
    between 10 and 70 the upper one, 20/30. *)
Lemma calculate_cpk_formula_witness :
  calculate_cpk (mkSixSigmaAnalyzer [8%float]) 100%float 10%float = 0%float /\
  calculate_cpk (mkSixSigmaAnalyzer [40; 60]%float) 100%float 10%float
  = 0x1.5555555555555p+0%float /\
  calculate_cpk (mkSixSigmaAnalyzer [40; 60]%float) 70%float 10%float
  = 0x1.5555555555555p-1%float /\
  minimum_of 0x1.aaaaaaaaaaaabp+0%float 0x1.5555555555555p+0%float
    (calculate_cpk (mkSixSigmaAnalyzer [40; 60]%float) 100%float 10%float).
Proof.
  assert (H1 : len (mkSixSigmaAnalyzer [8%float]) < 2)
    by (vm_compute; reflexivity).
  assert (H2 : 2 <= len (mkSixSigmaAnalyzer [40; 60]%float))
    by (vm_compute; discriminate).
  split; [| split; [| split]].
  - exact (proj1 (calculate_cpk_formula (mkSixSigmaAnalyzer [8%float])
                    100%float 10%float) H1).
  - etransitivity.
    + apply (proj1 (proj1 (proj2 (calculate_cpk_formula
                (mkSixSigmaAnalyzer [40; 60]%float) 100%float 10%float)) H2)).
      vm_compute. reflexivity.
    + vm_compute. reflexivity.
  - etransitivity.
    + apply (proj1 (proj2 (proj1 (proj2 (calculate_cpk_formula
                (mkSixSigmaAnalyzer [40; 60]%float) 70%float 10%float)) H2))).
      vm_compute. reflexivity.
    + vm_compute. reflexivity.
  - apply (proj2 (proj2 (proj1 (proj2 (calculate_cpk_formula
              (mkSixSigmaAnalyzer [40; 60]%float) 100%float 10%float)) H2)));
      vm_compute; reflexivity.
Defined.

(** C3 fails on the code.  Two equal samples have a standard deviation of
    zero, and [calculate_cpk] divides by three times it: [(100 - 50) / 0.0]
    is infinite, and so is the result; it is not 0.0. *)
Theorem calculate_cpk_constant_samples :
  Np.std [50; 50]%float = 0%float /\
  calculate_cpk (mkSixSigmaAnalyzer [50; 50]%float) 100%float 10%float
  = infinity /\
  calculate_cpk (mkSixSigmaAnalyzer [50; 50]%float) 100%float 10%float
  <> 0%float /\
  PrimFloat.is_nan
    (calculate_cpk (mkSixSigmaAnalyzer [100; 100]%float) 100%float 10%float)
  = true.
Proof.
  repeat split; try (vm_compute; reflexivity).
  apply (float_neq (fun x => PrimFloat.eqb x 0%float)).
  vm_compute. discriminate.
Qed.

(** C8. With fewer than two samples [control_chart] returns the empty
    dictionary.  With two or more it returns the three limits and nothing
    else: the mean as centre, and the mean plus and minus three population
    standard deviations. *)
Theorem control_chart_limits (self : SixSigmaAnalyzer) :
  (len self < 2 -> control_chart self = []) /\
  (2 <= len self ->
   control_chart self
   = [ ("upper_control_limit",
        (Np.mean (data self) + 3 * Np.std (data self))%float);
       ("lower_control_limit",
        (Np.mean (data self) - 3 * Np.std (data self))%float);
       ("mean", Np.mean (data self)) ] /\
   Py.dict_get "mean" (control_chart self) = Some (Np.mean (data self)) /\
   Py.dict_get "upper_control_limit" (control_chart self)
   = Some (Np.mean (data self) + 3 * Np.std (data self))%float /\
   Py.dict_get "lower_control_limit" (control_chart self)
   = Some (Np.mean (data self) - 3 * Np.std (data self))%float).
Proof.
  unfold control_chart. split; intros Hlen;
    destruct (Z.ltb_spec (len self) 2); try lia.
  - reflexivity.
  - repeat split.
Qed.

Lemma control_chart_limits_witness :
  (len (mkSixSigmaAnalyzer [8%float]) < 2 /\
   control_chart (mkSixSigmaAnalyzer [8%float]) = []) /\
  (2 <= len (mkSixSigmaAnalyzer [40; 60]%float) /\
   Py.dict_get "upper_control_limit"
     (control_chart (mkSixSigmaAnalyzer [40; 60]%float))
   = Some (50 + 3 * 10)%float).
Proof.
  split; (split; [vm_compute; (reflexivity || discriminate) |]).
  - apply (proj1 (control_chart_limits (mkSixSigmaAnalyzer [8%float]))).
    vm_compute. reflexivity.
  - apply (proj2 (control_chart_limits (mkSixSigmaAnalyzer [40; 60]%float))).
    vm_compute. discriminate.
Defined.

(** *** The quotient of two counts *)

Lemma digits2_size (p : positive) : digits2_pos p = Pos.size p.
Proof. induction p; cbn; now rewrite ?IHp. Qed.

Lemma digits2_shift (p k : positive) :
  digits2_pos (Pos.iter xO p k) = (digits2_pos p + k)%positive.
Proof.
  induction k as [| k IH] using Pos.peano_ind.
  - cbn. now rewrite Pos.add_1_r.
  - rewrite Pos.iter_succ. cbn [digits2_pos]. rewrite IH.
    now rewrite Pos.add_succ_r.
Qed.

Lemma digits2_bound (p : positive) :
  Z.pos p < 2 ^ 53 -> Z.pos (digits2_pos p) <= 53.
Proof.
  intros H. rewrite digits2_size.
  pose proof (Pos.size_le p) as Hle.
  apply Pos2Z.pos_le_pos in Hle. rewrite Pos2Z.inj_pow in Hle.
  change (Z.pos 2) with 2 in Hle.
  rewrite (Pos2Z.inj_xO p) in Hle.
  destruct (Z_le_gt_dec (Z.pos (Pos.size p)) 53) as [Hok | Hbig]; [exact Hok |].
  exfalso.
  assert (2 ^ 54 <= 2 ^ Z.pos (Pos.size p))
    by (apply Z.pow_le_mono_r; lia).
  change (2 ^ 53) with 9007199254740992 in H.
  change (2 ^ 54) with 18014398509481984 in *.
  lia.
Qed.

(** A count from 1 to 2^53 - 1 converts to a positive finite float, without
    rounding: its digits are shifted to fill the 53 bits of the mantissa. *)
Lemma float_of_count (n : Z) :
  1 <= n < 2 ^ 53 ->
  exists m e, Prim2SF (Py.float_of_int n) = S754_finite false m e.
Proof.
  intros [Hlo Hhi]. destruct n as [| p | p]; try lia.
  pose proof (digits2_bound p Hhi) as Hd.
  unfold Py.float_of_int.
  assert (Hnorm : exists m,
    binary_normalize prec emax (Z.pos p) 0 false
    = S754_finite false m (Z.pos (digits2_pos p) - 53) /\
    Z.pos (digits2_pos m) = 53).
  { unfold binary_normalize, binary_round.
    assert (Hfexp : fexp prec emax (Z.pos (digits2_pos p) + 0)
                    = Z.pos (digits2_pos p) - 53).
    { unfold fexp, emin, prec, emax. lia. }
    rewrite Hfexp. unfold shl_align.
    assert (Haux : forall m, Z.pos (digits2_pos m) = 53 ->
      binary_round_aux prec emax false (Z.pos m) (Z.pos (digits2_pos p) - 53)
        loc_Exact
      = S754_finite false m (Z.pos (digits2_pos p) - 53)).
    { intros m Hm. unfold binary_round_aux, shr_fexp.
      cbn [Zdigits2 shr_record_of_loc]. rewrite Hm.
      assert (H0 : fexp prec emax (53 + (Z.pos (digits2_pos p) - 53))
                   - (Z.pos (digits2_pos p) - 53) = 0).
      { unfold fexp, emin, prec, emax. lia. }
      rewrite H0. cbn [shr shr_m loc_of_shr_record round_nearest_even].
      cbn [Zdigits2 shr_record_of_loc]. rewrite Hm, H0. cbn [shr shr_m].
      destruct (Z.leb_spec (Z.pos (digits2_pos p) - 53) (emax - prec));
        [reflexivity |].
      unfold emax, prec in *. lia. }
    destruct (Z.pos (digits2_pos p) - 53 - 0) as [| k | k] eqn:Ek.
    - exists p. assert (Hp : Z.pos (digits2_pos p) = 53) by lia.
      split; [| exact Hp].
      rewrite <- (Haux p Hp). f_equal. lia.
    - lia.
    - assert (Hk : Z.pos (digits2_pos (Pos.iter xO p k)) = 53).
      { rewrite digits2_shift. rewrite Pos2Z.inj_add. lia. }
      exists (Pos.iter xO p k). split; [| exact Hk].
      now apply Haux. }
  destruct Hnorm as (m & -> & Hm).
  exists m, (Z.pos (digits2_pos p) - 53).
  apply Prim2SF_SF2Prim. cbn [valid_binary]. unfold bounded, canonical_mantissa.
  rewrite Hm.
  apply andb_true_intro. split.
  - apply Z.eqb_eq. unfold fexp, emin, prec, emax. lia.
  - apply Z.leb_le. unfold emax, prec. lia.
Qed.

(** A finite number divided by itself is 1.0. *)
Lemma SFdiv_self (s : bool) (m : positive) (e : Z) :
  SFdiv prec emax (S754_finite s m e) (S754_finite s m e) = Prim2SF 1.
Proof.
  unfold SFdiv, SFdiv_core_binary. cbn [Zdigits2].
  replace (Z.pos (digits2_pos m) + e - (Z.pos (digits2_pos m) + e)) with 0
    by lia.
  replace (e - e) with 0 by lia.
  change (Z.min (fexp prec emax 0) 0) with (-53).
  change (0 - -53) with 53.
  cbv iota.
  assert (Hdiv : Z.div_eucl (Z.shiftl (Z.pos m) 53) (Z.pos m)
                 = (2 ^ 53, 0)).
  { rewrite Z.shiftl_mul_pow2 by lia.
    pose proof (Z.div_eucl_eq (Z.pos m * 2 ^ 53) (Z.pos m)) as Heq.
    pose proof (Z.mod_pos_bound (Z.pos m * 2 ^ 53) (Z.pos m)) as Hb.
    unfold Z.modulo in Hb.
    destruct (Z.div_eucl (Z.pos m * 2 ^ 53) (Z.pos m)) as [q r].
    assert (0 <= r < Z.pos m) by (apply Hb; lia).
    assert (Z.pos m * 2 ^ 53 = Z.pos m * q + r) by (apply Heq; lia).
    assert (q = 2 ^ 53) by nia.
    f_equal; nia. }
  rewrite Hdiv.
  assert (Hloc : new_location (Z.pos m) 0 = loc_Exact).
  { unfold new_location. now destruct (Z.even (Z.pos m)). }
  rewrite Hloc. destruct s; reflexivity.
Qed.

(** [n / n] is 1.0 for a count [n]. *)
Lemma truediv_self (n : Z) :
  1 <= n < 2 ^ 53 -> Py.int_truediv n n = 1%float.
Proof.
  intros H. destruct (float_of_count n H) as (m & e & Hn).
  unfold Py.int_truediv. apply Prim2SF_inj. rewrite div_spec, Hn.
  apply SFdiv_self.
Qed.

(** [0 / n] is 0.0 for a count [n]. *)
Lemma truediv_zero (n : Z) :
  1 <= n < 2 ^ 53 -> Py.int_truediv 0 n = 0%float.
Proof.
  intros H. destruct (float_of_count n H) as (m & e & Hn).
  unfold Py.int_truediv. apply Prim2SF_inj. rewrite div_spec, Hn.
  reflexivity.
Qed.

(** C6. With two samples or more, the defects are the samples strictly below
    10, the defect rate is their number over the number of samples, the
    quotient of the two counts as binary64 numbers, and
    [calculate_sigma_level] returns 0.0 when the rate is at least 1 and
    [norm.ppf(1 - rate) + 1.5] otherwise.  For any number of samples an array
    can hold (below 2^53): when every sample is a defect the rate is 1.0 and
    the result 0.0; when none is, the rate is 0.0 and the result
    [norm.ppf(1.0) + 1.5].  For the samples 5, 8, 12, 9, 11 the defects are
    5, 8 and 9, the rate is 0.6 and the result is [norm.ppf(0.4) + 1.5];
    where [norm.ppf(0.4)] is the binary64 number nearest to the quantile,
    -0.2533471031357997, that is 1.2466528968642003. *)
Theorem calculate_sigma_level_formula
  (norm_ppf : float -> float) (self : SixSigmaAnalyzer) :
  2 <= len self ->
  defects self
  = Z.of_nat
      (List.length (filter (fun x => PrimFloat.ltb x 10%float) (data self))) /\
  0 <= defects self <= len self /\
  defect_rate self
  = (Py.float_of_int (defects self) / Py.float_of_int (len self))%float /\
  (len self < 2 ^ 53 -> defects self = len self ->
   defect_rate self = 1%float /\
   calculate_sigma_level norm_ppf self = 0%float) /\
  (len self < 2 ^ 53 -> defects self = 0 ->
   defect_rate self = 0%float /\
   calculate_sigma_level norm_ppf self = (norm_ppf 1 + 1.5)%float) /\
  (PrimFloat.leb 1%float (defect_rate self) = true ->
   calculate_sigma_level norm_ppf self = 0%float) /\
  (PrimFloat.leb 1%float (defect_rate self) = false ->
   calculate_sigma_level norm_ppf self
   = (norm_ppf (1 - defect_rate self) + 1.5)%float) /\
  filter (fun x => PrimFloat.ltb x 10%float) (data scenario)
  = [5; 8; 9]%float /\
  defect_rate scenario = 0x1.3333333333333p-1%float /\
  calculate_sigma_level norm_ppf scenario
  = (norm_ppf 0x1.999999999999ap-2 + 1.5)%float /\
  (norm_ppf 0x1.999999999999ap-2%float = (-0x1.036d6c4a04b59p-2)%float ->
   calculate_sigma_level norm_ppf scenario = 0x1.3f24a4ed7ed2ap+0%float).
Proof.
  intros Hlen.
  assert (Hscenario :
    calculate_sigma_level norm_ppf scenario
    = (norm_ppf 0x1.999999999999ap-2 + 1.5)%float)
    by (vm_compute; reflexivity).
  assert (Hbranch :
    calculate_sigma_level norm_ppf self
    = if PrimFloat.leb 1%float (defect_rate self) then 0%float
      else (norm_ppf (1 - defect_rate self) + 1.5)%float).
  { unfold calculate_sigma_level.
    destruct (Z.ltb_spec (len self) 2); [lia | reflexivity]. }
  split; [apply defects_count |].
  split.
  { rewrite defects_count. unfold len.
    pose proof (filter_length_le (fun x => PrimFloat.ltb x 10%float)
                  (data self)).
    lia. }
  split; [reflexivity |].
  split.
  { intros Hbig Hall.
    assert (Hrate : defect_rate self = 1%float).
    { unfold defect_rate. rewrite Hall. apply truediv_self. lia. }
    split; [exact Hrate |]. rewrite Hbranch, Hrate. reflexivity. }
  split.
  { intros Hbig Hnone.
    assert (Hrate : defect_rate self = 0%float).
    { unfold defect_rate. rewrite Hnone. apply truediv_zero. lia. }
    split; [exact Hrate |]. rewrite Hbranch, Hrate. reflexivity. }
  split; [intros H; now rewrite Hbranch, H |].
  split; [intros H; now rewrite Hbranch, H |].
  split; [vm_compute; reflexivity |].
  split; [vm_compute; reflexivity |].
  split; [exact Hscenario |].
  intros Hppf. rewrite Hscenario, Hppf. vm_compute. reflexivity.
Qed.

(** The scenario; three samples that are all defects; two samples of which
    none is a defect, one of them on the threshold; and one defect in two
    samples.  The quantile function is the measured value of [norm.ppf(0.4)]
    in the first case and the identity in the others, so that the 0.0 of the
    second case can only come from the guard. *)
Lemma calculate_sigma_level_formula_witness :
  calculate_sigma_level (fun _ => (-0x1.036d6c4a04b59p-2)%float) scenario
  = 0x1.3f24a4ed7ed2ap+0%float /\
  (defect_rate (mkSixSigmaAnalyzer [1; 2; 3]%float) = 1%float /\
   calculate_sigma_level (fun p => p) (mkSixSigmaAnalyzer [1; 2; 3]%float)
   = 0%float) /\
  (defect_rate (mkSixSigmaAnalyzer [10; 12]%float) = 0%float /\
   calculate_sigma_level (fun p => p) (mkSixSigmaAnalyzer [10; 12]%float)
   = 2.5%float) /\
  calculate_sigma_level (fun p => p) (mkSixSigmaAnalyzer [5; 12]%float)
  = 2%float.
Proof.
  assert (H : 2 <= len scenario) by (vm_compute; discriminate).
  assert (H3 : 2 <= len (mkSixSigmaAnalyzer [1; 2; 3]%float))
    by (vm_compute; discriminate).
  assert (H2 : 2 <= len (mkSixSigmaAnalyzer [10; 12]%float))
    by (vm_compute; discriminate).
  assert (H1 : 2 <= len (mkSixSigmaAnalyzer [5; 12]%float))
    by (vm_compute; discriminate).
  split; [| split; [| split]].
  - destruct (calculate_sigma_level_formula
                (fun _ => (-0x1.036d6c4a04b59p-2)%float) scenario H)
      as (_ & _ & _ & _ & _ & _ & _ & _ & _ & _ & Hvalue).
    apply Hvalue. reflexivity.
  - destruct (calculate_sigma_level_formula (fun p => p)
                (mkSixSigmaAnalyzer [1; 2; 3]%float) H3)
      as (_ & _ & _ & Hall & _).
    apply Hall; vm_compute; reflexivity.
  - destruct (calculate_sigma_level_formula (fun p => p)
                (mkSixSigmaAnalyzer [10; 12]%float) H2)
      as (_ & _ & _ & _ & Hnone & _).
    apply Hnone; vm_compute; reflexivity.
  - destruct (calculate_sigma_level_formula (fun p => p)
                (mkSixSigmaAnalyzer [5; 12]%float) H1)
      as (_ & _ & _ & _ & _ & _ & Hbelow & _).
    rewrite Hbelow; vm_compute; reflexivity.
Defined.

(** ** [generate_quality_report] *)

(** C5 as the specification states it fails.  With one record, fewer than two, the
    report is not the empty one: it carries the statistics of the single
    throughput and the record. *)
Lemma report_of_one_record_is_populated :
  Z.of_nat (List.length (metrics one_record)) < 2 /\
  generate_quality_report (fun p => p) one_record <> Py.VDict [] /\
  generate_quality_report (fun p => p) one_record
  = Py.VDict
      [ ("throughput_stats",
         Py.VDict
           [ ("mean", Py.VFloat 8%float); ("std_dev", Py.VFloat 0%float);
             ("cpk", Py.VFloat 0%float); ("sigma_level", Py.VFloat 0%float) ]);
        ("transfer_metrics", Py.VList (map vars (metrics one_record))) ].
Proof.
  split; [vm_compute; reflexivity |].
  split; [vm_compute; discriminate | vm_compute; reflexivity].
Qed.

(** C5, as the code has it: the report is the empty dictionary exactly when
    no transfer has been recorded.  Otherwise it is computed from the records
    of that moment: the mean and the population standard deviation of their
    throughputs, [calculate_cpk(100, 10)] and [calculate_sigma_level()] of
    an analyzer built on them, and the records themselves. *)
Theorem report_empty_iff_no_record
  (norm_ppf : float -> float) {World : Type} (s : Session World) :
  (generate_quality_report norm_ppf s = Py.VDict [] <-> metrics s = []) /\
  (metrics s <> [] ->
   generate_quality_report norm_ppf s
   = Py.VDict
       [ ("throughput_stats",
          Py.VDict
            [ ("mean", Py.VFloat (Np.mean (map throughput_mbps (metrics s))));
              ("std_dev",
               Py.VFloat (Np.std (map throughput_mbps (metrics s))));
              ("cpk",
               Py.VFloat
                 (calculate_cpk
                    (mkSixSigmaAnalyzer (map throughput_mbps (metrics s)))
                    100%float 10%float));
              ("sigma_level",
               Py.VFloat
                 (calculate_sigma_level norm_ppf
                    (mkSixSigmaAnalyzer (map throughput_mbps (metrics s))))) ]);
         ("transfer_metrics", Py.VList (map vars (metrics s))) ]).
Proof.
  unfold generate_quality_report.
  destruct (metrics s) as [| m ms]; cbn [map].
  - split; [now split | intros H; now destruct H].
  - split; [split; discriminate | reflexivity].
Qed.

Lemma report_empty_iff_no_record_witness :
  metrics one_record <> [] /\
  Py.dict_get "transfer_metrics"
    match generate_quality_report (fun p => p) one_record with
    | Py.VDict d => d
    | _ => []
    end
  = Some (Py.VList (map vars (metrics one_record))).
Proof.
  assert (H : metrics one_record <> []) by discriminate.
  split; [exact H |].
  rewrite (proj2 (report_empty_iff_no_record (fun p => p) one_record) H).
  reflexivity.
Defined.

(** ** The helpers of the transfer *)

Section HelperFacts.

Context {World : Type} {collaborators : Collaborators World}.

Lemma chunk_size_pos : (0 < chunk_size)%nat.
Proof. unfold chunk_size. lia. Qed.

Lemma firstn_nil_inv {A : Type} (n : nat) (l : list A) :
  (0 < n)%nat -> firstn n l = [] -> l = [].
Proof.
  intros Hn H. destruct n as [| n]; [lia |].
  destruct l; [reflexivity | discriminate].
Qed.

(** The read loop feeds the whole file to the hash object, whatever was fed
    before, as soon as it may turn once more than the file has bytes. *)
Lemma read_loop_reads_all (fuel : nat) :
  forall f fed : list byte,
    (List.length f < fuel)%nat -> read_loop fuel f fed = fed ++ f.
Proof.
  induction fuel as [| fuel IH]; intros f fed Hlen; [lia |].
  cbn [read_loop].
  destruct (firstn chunk_size f) as [| b chunk] eqn:E.
  - apply firstn_nil_inv in E; [| apply chunk_size_pos].
    subst f. now rewrite app_nil_r.
  - rewrite IH.
    + rewrite <- E, <- app_assoc. f_equal. apply firstn_skipn.
    + rewrite length_skipn. pose proof chunk_size_pos.
      destruct f; [discriminate | cbn [List.length] in *; lia].
Qed.

Lemma calculate_sha256_eq (file_path : string) (s : Session World) :
  _calculate_sha256 file_path s
  = (match fst (read_file file_path (world s)) with
     | inl e => inl e
     | inr f => inr (sha256_hexdigest f)
     end,
     mkSession (metrics s) (trace s) (snd (read_file file_path (world s)))).
Proof.
  unfold _calculate_sha256, bind, try_call, ret.
  destruct (read_file file_path (world s)) as [[e | f] w]; cbn [fst snd].
  - reflexivity.
  - rewrite read_loop_reads_all by lia. reflexivity.
Qed.

(** [_calculate_sha256] is the digest of the whole file, or the exception of
    the read; it touches neither the records nor the log. *)
Theorem calculate_sha256_digests_the_file
  (file_path : string) (s : Session World) :
  _calculate_sha256 file_path s
  = (match fst (read_file file_path (world s)) with
     | inl e => inl e
     | inr f => inr (sha256_hexdigest f)
     end,
     mkSession (metrics s) (trace s) (snd (read_file file_path (world s)))).
Proof. apply calculate_sha256_eq. Qed.

(** Of what the remote command prints, only the first token counts: a
    digest followed by a blank and anything is read as the digest. *)
Theorem first_token_is_the_digest (digest rest : list byte) :
  digest <> [] ->
  forallb (fun b => negb (is_space b)) digest = true ->
  first_token (digest ++ x20 :: rest) = inr digest.
Proof.
  intros Hne Hns. unfold first_token.
  assert (Hls : lstrip (digest ++ x20 :: rest) = digest ++ x20 :: rest).
  { destruct digest as [| b d]; [congruence |].
    cbn [forallb] in Hns. apply andb_prop in Hns as [Hb _].
    cbn [app lstrip]. apply negb_true_iff in Hb. now rewrite Hb. }
  assert (Htok : token (digest ++ x20 :: rest) = digest).
  { clear Hne Hls. induction digest as [| b d IH]; [reflexivity |].
    cbn [forallb] in Hns. apply andb_prop in Hns as [Hb Hd].
    cbn [app token]. apply negb_true_iff in Hb. rewrite Hb.
    now rewrite IH. }
  rewrite Hls, Htok. destruct digest; [congruence | reflexivity].
Qed.

Lemma first_token_is_the_digest_witness :
  first_token Sim.stdout = inr Sim.content.
Proof.
  apply (first_token_is_the_digest Sim.content
           [x20; x2f; x74; x6d; x70; x2f; x66; x0a]).
  - discriminate.
  - reflexivity.
Defined.

(** When the copy fails in every state of the world, every attempt fails. *)
Lemma attempt_fails_when_put_fails (local_path remote_path : string)
  (verify : bool) (s : Session World) :
  (forall w, exists e, fst (scp_put local_path remote_path w) = inl e) ->
  exists e s', attempt local_path remote_path verify s = (inl e, s').
Proof.
  intros Hdown.
  destruct (attempt local_path remote_path verify s) as [[e | u] s'] eqn:E.
  - now exists e, s'.
  - exfalso. unfold attempt in E.
    apply bind_inr in E as (t0 & s1 & _ & E); cbv beta zeta in E.
    apply bind_inr in E as (h & s2 & _ & E); cbv beta zeta in E.
    apply bind_inr in E as (u3 & s3 & Eput & _).
    apply try_call_inv in Eput as [Eput _].
    destruct (Hdown (world s2)) as [e He]. congruence.
Qed.

Lemma all_failed_when_put_fails (local_path remote_path : string)
  (verify : bool) (retries : Z) (attempts : list Z) :
  (forall w, exists e, fst (scp_put local_path remote_path w) = inl e) ->
  forall s,
    forallb failed
      (attempts_made local_path remote_path verify retries attempts s)
    = true.
Proof.
  intros Hdown. induction attempts as [| k rest IH]; intros s.
  - reflexivity.
  - cbn [attempts_made].
    destruct (attempt_fails_when_put_fails local_path remote_path verify s
                Hdown) as (e & s' & ->).
    cbn [forallb failed snd andb].
    destruct (k =? retries); [reflexivity | apply IH].
Qed.

(** A channel that is down for good: with [retries >= 1] the call returns
    [False], appends nothing, and has slept 2, 4, ..., [2^(retries-1)]
    seconds. *)
Theorem dead_channel_returns_false
  (local_path remote_path : string) (verify : bool) (retries : Z)
  (s : Session World) :
  1 <= retries ->
  (forall w, exists e, fst (scp_put local_path remote_path w) = inl e) ->
  fst (secure_transfer local_path remote_path verify retries s) = Some false /\
  metrics (snd (secure_transfer local_path remote_path verify retries s))
  = metrics s /\
  sleeps (trace (snd (secure_transfer local_path remote_path verify retries s)))
  = sleeps (trace s) ++ map (Z.pow 2) (Py.range 1 retries).
Proof.
  intros Hretries Hdown. unfold secure_transfer.
  destruct (loop_all_fail local_path remote_path verify retries
              (Z.to_nat (retries - 1)) 1 s Hretries eq_refl
              (all_failed_when_put_fails local_path remote_path verify
                 retries _ Hdown s))
    as (es & Hlen & _ & Hret & Htr).
  split; [exact Hret |]. split.
  - pose proof (loop_metrics local_path remote_path verify retries
                  (Py.range 1 (retries + 1)) s) as Hm.
    rewrite Hret in Hm. exact Hm.
  - rewrite Htr, sleeps_app. f_equal.
    apply sleeps_failure_events; [lia | exact Hlen].
Qed.

End HelperFacts.

Lemma dead_channel_returns_false_witness :
  fst (secure_transfer "/f" "/tmp/f" true 3 (mkSession [] [] 0%float))
  = Some false /\
  sleeps (trace (snd (secure_transfer "/f" "/tmp/f" true 3
                        (mkSession [] [] 0%float))))
  = [2; 4].
Proof.
  assert (H1 : 1 <= 3) by lia.
  assert (H2 : forall w : float,
             exists e, fst (scp_put "/f" "/tmp/f" w) = inl e)
    by (intros w; eexists; reflexivity).
  destruct (dead_channel_returns_false "/f" "/tmp/f" true 3
              (mkSession [] [] 0%float) H1 H2) as (Hret & _ & Hsl).
  split; [exact Hret | exact Hsl].
Defined.

(** The scenario of the specification: 1,000,000 bytes in one second are
    8.0 Mbps. *)
Theorem throughput_of_one_megabyte_per_second :
  Py.int_div_float (1000000 * 8) (1 * Py.float_of_int 1000000)%float
  = inr 8%float.
Proof. vm_compute. reflexivity. Qed.

(** ** More on one attempt *)

(** *** Decoding the remote digest *)

Lemma utf8_error_ascii_byte (b : byte) (r : list byte) (s : Z) :
  (Byte.to_N b < 128)%N ->
  Py.utf8_error s (b :: r) = Py.utf8_error (s + 1) r.
Proof.
  intros H. apply N.ltb_lt in H. cbn [Py.utf8_error]. now rewrite H.
Qed.

Lemma utf8_error_invalid_start (b : byte) (r : list byte) (s : Z) :
  (128 <= Byte.to_N b < 194 \/ 245 <= Byte.to_N b)%N ->
  Py.utf8_error s (b :: r) = Some (s, s + 1, "invalid start byte"%string).
Proof.
  intros H. cbn [Py.utf8_error].
  destruct (N.ltb_spec (Byte.to_N b) 128); [lia |].
  destruct (N.ltb_spec (Byte.to_N b) 194); [reflexivity |].
  destruct (N.ltb_spec (Byte.to_N b) 224); [lia |].
  destruct (N.ltb_spec (Byte.to_N b) 240); [lia |].
  destruct (N.ltb_spec (Byte.to_N b) 245); [lia | reflexivity].
Qed.

Lemma utf8_error_ascii (pre rest : list byte) (s : Z) :
  Forall (fun c => (Byte.to_N c < 128)%N) pre ->
  Py.utf8_error s (pre ++ rest)
  = Py.utf8_error (s + Z.of_nat (List.length pre)) rest.
Proof.
  intros H. revert s.
  induction H as [| c pre Hc _ IH]; intros s.
  - cbn [app List.length]. f_equal. cbn. lia.
  - cbn [app]. rewrite utf8_error_ascii_byte by exact Hc. rewrite IH.
    f_equal. cbn [List.length]. lia.
Qed.


(** A token whose first byte outside ASCII cannot start a UTF-8 sequence
    does not decode. *)
Lemma decode_invalid_start (pre rest : list byte) (b : byte) :
  Forall (fun c => (Byte.to_N c < 128)%N) pre ->
  (128 <= Byte.to_N b < 194 \/ 245 <= Byte.to_N b)%N ->
  Py.bytes_decode (pre ++ b :: rest)
  = inl (Py.UnicodeDecodeError
           ("'utf-8' codec can't decode byte " ++ Py.hex_byte b
            ++ " in position " ++ Py.str_int (Z.of_nat (List.length pre))
            ++ ": invalid start byte")%string).
Proof.
  intros Hpre Hb. unfold Py.bytes_decode.
  rewrite utf8_error_ascii by exact Hpre.
  rewrite utf8_error_invalid_start by exact Hb.
  unfold Py.decode_error_message. rewrite Z.eqb_refl.
  rewrite Z.add_0_l, Nat2Z.id, nth_middle. reflexivity.
Qed.


Section AttemptFacts.

Context {World : Type} {collaborators : Collaborators World}.

Variables (local_path remote_path : string).

(** Peels the first statement off a sequence that ended normally. *)
Ltac peel H a s1 E :=
  apply bind_inr in H as (a & s1 & E & H); cbv beta zeta in H.

(** What a clean attempt has gone through, and the record it appends. *)
Lemma attempt_success_record (verify : bool) (s s' : Session World) (u : unit) :
  attempt local_path remote_path verify s = (inr u, s') ->
  exists m bs,
    metrics s' = metrics s ++ [m] /\
    filename m = local_path /\
    fst (read_file local_path (world_read s)) = inr bs /\
    sha256_checksum m = sha256_hexdigest bs /\
    fst (scp_put local_path remote_path (world_put local_path s)) = inr tt /\
    (verify = true ->
     exists out t,
       fst (ssh_exec_command ("sha256sum " ++ remote_path)%string
              (world_verify local_path remote_path s)) = inr out /\
       first_token out = inr t /\
       decode t = inr (sha256_checksum m)).
Proof.
  intros H. unfold attempt in H.
  peel H t0 s1 E1. apply call_inr in E1 as [-> ->].
  peel H h s2 E2.
  rewrite calculate_sha256_eq in E2. cbn [world] in E2.
  fold (world_read s) in E2.
  destruct (fst (read_file local_path (world_read s))) as [e | bs] eqn:Eread;
    [discriminate |].
  injection E2 as <- <-.
  peel H u3 s3 E3. apply try_call_inv in E3 as [Eput ->].
  cbn [world] in *. fold (world_put local_path s) in *.
  peel H t1 s4 E4. apply call_inr in E4 as [-> ->].
  cbn [world] in *. fold (world_timed local_path remote_path s) in *.
  peel H u5 s5 E5.
  assert (Hq : metrics s5 = metrics s /\ trace s5 = trace s).
  { eapply (quiet_if verify) in E5;
      [ exact E5
      | auto 8 using quiet_get_remote_sha256 with quiet
      | auto with quiet ]. }
  destruct Hq as [Hm5 _].
  peel H size s6 E6. apply try_call_inv in E6 as [_ ->].
  peel H thr s7 E7. apply eval_inr in E7 as [_ ->].
  peel H stamp s8 E8. apply call_inr in E8 as [-> ->].
  peel H u9 s9 E9. apply metrics_append_inv in E9 as [_ ->].
  apply logger_inv in H as [_ ->].
  eexists. exists bs. unfold emit. cbn [metrics trace world].
  split; [rewrite Hm5; reflexivity |].
  split; [reflexivity |].
  split; [reflexivity |].
  split; [reflexivity |].
  split; [destruct u3; symmetry; exact Eput |].
  intros ->. cbn [sha256_checksum].
  peel E5 remote_hash s5' Eremote.
  unfold _get_remote_sha256 in Eremote.
  peel Eremote out s5a Eout. apply try_call_inv in Eout as [Eout ->].
  cbn [world] in *. fold (world_verify local_path remote_path s) in *.
  peel Eremote t s5b Et. apply eval_inr in Et as [Et ->].
  apply eval_inr in Eremote as [Ed ->].
  destruct (negb (sha256_hexdigest bs =? remote_hash)%string) eqn:Eneq;
    [discriminate |].
  apply negb_false_iff, String.eqb_eq in Eneq. subst remote_hash.
  exists out, t. repeat split; [symmetry; exact Eout | exact Et | exact Ed].
Qed.

(** A collaborator call, forwards: its outcome and the session it leaves. *)
Lemma call_eq {A : Type} (f : World -> A * World) (s : Session World) :
  call f s
  = (inr (fst (f (world s))),
     mkSession (metrics s) (trace s) (snd (f (world s)))).
Proof. unfold call. now destruct (f (world s)). Qed.

Lemma try_call_eq {A : Type} (f : World -> Py.result A * World)
  (s : Session World) :
  try_call f s
  = (fst (f (world s)), mkSession (metrics s) (trace s) (snd (f (world s)))).
Proof. unfold try_call. now destruct (f (world s)). Qed.

(** With [verify] on, when the file is read and copied and the first token
    of what the remote [sha256sum] prints decodes to something else than the
    local digest, the attempt raises [IntegrityError]: the copy is made, no
    record is appended, nothing is logged by the attempt itself. *)
Theorem checksum_mismatch_fails_the_attempt
  (s : Session World) (bs out t : list byte) (d : string) :
  fst (read_file local_path (world_read s)) = inr bs ->
  fst (scp_put local_path remote_path (world_put local_path s)) = inr tt ->
  fst (ssh_exec_command ("sha256sum " ++ remote_path)%string
         (world_verify local_path remote_path s)) = inr out ->
  first_token out = inr t ->
  decode t = inr d ->
  d <> sha256_hexdigest bs ->
  attempt local_path remote_path true s
  = (inl (Py.IntegrityError "Checksum mismatch"),
     mkSession (metrics s) (trace s)
       (snd (ssh_exec_command ("sha256sum " ++ remote_path)%string
               (world_verify local_path remote_path s)))).
Proof.
  intros Hread Hput Hout Ht Hd Hne.
  unfold attempt, _get_remote_sha256, bind.
  rewrite call_eq. cbn [world metrics trace].
  rewrite calculate_sha256_eq. cbn [world metrics trace].
  fold (world_read s). rewrite Hread.
  rewrite try_call_eq. cbn [world metrics trace].
  fold (world_put local_path s). rewrite Hput.
  rewrite call_eq. cbn [world metrics trace].
  fold (world_timed local_path remote_path s).
  rewrite try_call_eq. cbn [world metrics trace].
  fold (world_verify local_path remote_path s). rewrite Hout.
  unfold eval, raise. rewrite Ht, Hd.
  assert (Hneq : (sha256_hexdigest bs =? d)%string = false).
  { apply String.eqb_neq. congruence. }
  rewrite Hneq. reflexivity.
Qed.

(** With [verify] on, when the file is read and copied and the first token
    of what the remote [sha256sum] prints is not UTF-8, its first byte
    outside ASCII being one that starts no sequence, [decode] raises
    [UnicodeDecodeError] with the message of the codec, and so does the
    attempt: the copy is made, no record is appended. *)
Theorem undecodable_token_fails_the_attempt
  (s : Session World) (bs out pre rest : list byte) (b : byte) :
  fst (read_file local_path (world_read s)) = inr bs ->
  fst (scp_put local_path remote_path (world_put local_path s)) = inr tt ->
  fst (ssh_exec_command ("sha256sum " ++ remote_path)%string
         (world_verify local_path remote_path s)) = inr out ->
  first_token out = inr (pre ++ b :: rest) ->
  Forall (fun c => (Byte.to_N c < 128)%N) pre ->
  (128 <= Byte.to_N b < 194 \/ 245 <= Byte.to_N b)%N ->
  attempt local_path remote_path true s
  = (inl (Py.UnicodeDecodeError
            ("'utf-8' codec can't decode byte " ++ Py.hex_byte b
             ++ " in position " ++ Py.str_int (Z.of_nat (List.length pre))
             ++ ": invalid start byte")%string),
     mkSession (metrics s) (trace s)
       (snd (ssh_exec_command ("sha256sum " ++ remote_path)%string
               (world_verify local_path remote_path s)))).
Proof.
  intros Hread Hput Hout Ht Hpre Hb.
  unfold attempt, _get_remote_sha256, bind.
  rewrite call_eq. cbn [world metrics trace].
  rewrite calculate_sha256_eq. cbn [world metrics trace].
  fold (world_read s). rewrite Hread.
  rewrite try_call_eq. cbn [world metrics trace].
  fold (world_put local_path s). rewrite Hput.
  rewrite call_eq. cbn [world metrics trace].
  fold (world_timed local_path remote_path s).
  rewrite try_call_eq. cbn [world metrics trace].
  fold (world_verify local_path remote_path s). rewrite Hout.
  unfold eval, raise, decode. rewrite Ht.
  rewrite (decode_invalid_start pre rest b Hpre Hb). reflexivity.
Qed.

End AttemptFacts.

(** ** More on the retry loop *)

Lemma sum_from (xs : list Z) (a : Z) :
  fold_left Z.add xs a = a + Py.sum xs.
Proof.
  unfold Py.sum. revert a. induction xs as [| x xs IH]; intros a; cbn [fold_left].
  - lia.
  - rewrite IH, (IH (0 + x)). lia.
Qed.

Lemma sum_cons (x : Z) (xs : list Z) : Py.sum (x :: xs) = x + Py.sum xs.
Proof. unfold Py.sum at 1. cbn [fold_left]. rewrite sum_from. lia. Qed.

(** [2^j + 2^(j+1) + ... + 2^(j+n-1) = 2^(j+n) - 2^j] *)
Lemma sum_powers_of_two (n : nat) :
  forall j : Z,
    0 <= j ->
    Py.sum (map (Z.pow 2) (Py.range j (j + Z.of_nat n)))
    = 2 ^ (j + Z.of_nat n) - 2 ^ j.
Proof.
  induction n as [| n IH]; intros j Hj.
  - rewrite range_nil by lia. replace (j + Z.of_nat 0) with j by lia.
    cbn. lia.
  - rewrite range_cons by lia. cbn [map]. rewrite sum_cons.
    replace (j + Z.of_nat (S n)) with (j + 1 + Z.of_nat n) by lia.
    rewrite IH by lia.
    rewrite (Z.pow_add_r 2 j 1) by lia. lia.
Qed.

Section RunFacts.

Context {World : Type} {collaborators : Collaborators World}.

Variables (local_path remote_path : string) (verify : bool) (retries : Z).

#[local] Abbreviation run_loop :=
  (retry_loop local_path remote_path verify retries).
#[local] Abbreviation run_made :=
  (attempts_made local_path remote_path verify retries).

(** When the loop returns [True], its last attempt is the clean one, and it
    leads to the session the loop ends in. *)
Lemma loop_success_attempt (attempts : list Z) :
  forall s : Session World,
    fst (run_loop attempts s) = Some true ->
    exists earlier s0,
      run_made attempts s = earlier ++ [(s0, inr tt)] /\
      forallb failed earlier = true /\
      metrics s0 = metrics s /\
      attempt local_path remote_path verify s0
      = (inr tt, snd (run_loop attempts s)).
Proof.
  induction attempts as [| k rest IH]; intros s Hret.
  - discriminate.
  - cbn [retry_loop attempts_made] in *.
    destruct (attempt local_path remote_path verify s) as [[e | u] s1] eqn:E.
    + apply attempt_failure in E as [Em _].
      destruct (k =? retries); [discriminate |].
      destruct (IH _ Hret) as (earlier & s0 & Hmade & Hf & Hm0 & Hatt).
      exists ((s, inl e) :: earlier), s0.
      rewrite Hmade. cbn [sleep handler emit metrics] in *.
      repeat split; try assumption; congruence.
    + exists [], s. destruct u. now repeat split.
Qed.

(** The loop over [j .. retries] sleeps [2^j], [2^(j+1)], ... once after each
    attempt it makes but the last. *)
Lemma loop_sleeps (n : nat) :
  forall (j : Z) (s : Session World),
    j <= retries ->
    Z.to_nat (retries - j) = n ->
    (1 <= List.length (run_made (Py.range j (retries + 1)) s) <= S n)%nat /\
    sleeps (trace (snd (run_loop (Py.range j (retries + 1)) s)))
    = sleeps (trace s)
      ++ map (Z.pow 2)
           (Py.range j
              (j + Z.of_nat
                     (List.length (run_made (Py.range j (retries + 1)) s))
               - 1)).
Proof.
  induction n as [| n IH]; intros j s Hj Hn;
    rewrite range_cons by lia;
    cbn [retry_loop attempts_made];
    destruct (attempt local_path remote_path verify s) as [[e | u] s1] eqn:E.
  - apply attempt_failure in E as [_ Et].
    assert (j = retries) as -> by lia. rewrite Z.eqb_refl.
    cbn [List.length snd]. split; [lia |].
    rewrite range_nil by lia. cbn [map handler emit trace].
    rewrite Et, <- app_assoc, sleeps_app. cbn. reflexivity.
  - apply attempt_success in E as (m & _ & Et & _).
    cbn [List.length snd]. split; [lia |].
    rewrite range_nil by lia. rewrite Et, sleeps_app. cbn. reflexivity.
  - apply attempt_failure in E as [_ Et].
    assert (Ek : (j =? retries) = false) by (apply Z.eqb_neq; lia).
    rewrite Ek.
    destruct (IH (j + 1) (sleep (2 ^ j) (handler j retries e s1)))
      as [Hlen Hsl]; [lia | lia |].
    cbn [List.length snd]. split; [lia |].
    rewrite Hsl. cbn [sleep handler emit trace]. rewrite Et.
    rewrite !sleeps_app. cbn [sleeps flat_map app].
    rewrite <- !app_assoc. cbn [app]. f_equal.
    rewrite (range_cons j) by lia. cbn [map]. do 3 f_equal. lia.
  - apply attempt_success in E as (m & _ & Et & _).
    cbn [List.length snd]. split; [lia |].
    rewrite range_nil by lia. rewrite Et, sleeps_app. cbn. reflexivity.
Qed.

End RunFacts.

(** ** More on [secure_transfer] *)

Section TransferMore.

Context {World : Type} {collaborators : Collaborators World}.

Variables (local_path remote_path : string) (verify : bool) (retries : Z).

(** The backoff of any call with [retries >= 1]: if it makes [k] attempts,
    between 1 and [retries], it sleeps after each but the last, 2, 4, ...,
    [2^(k-1)] seconds, [2^k - 2] seconds in all, which is at most
    [2^retries - 2]. *)
Theorem backoff_schedule (s : Session World) :
  1 <= retries ->
  1 <= Z.of_nat
         (List.length
            (attempts_made local_path remote_path verify retries
               (Py.range 1 (retries + 1)) s))
    <= retries /\
  sleeps (trace (snd (secure_transfer local_path remote_path verify retries s)))
  = sleeps (trace s)
    ++ map (Z.pow 2)
         (Py.range 1
            (Z.of_nat
               (List.length
                  (attempts_made local_path remote_path verify retries
                     (Py.range 1 (retries + 1)) s)))) /\
  Py.sum
    (map (Z.pow 2)
       (Py.range 1
          (Z.of_nat
             (List.length
                (attempts_made local_path remote_path verify retries
                   (Py.range 1 (retries + 1)) s)))))
  = 2 ^ Z.of_nat
          (List.length
             (attempts_made local_path remote_path verify retries
                (Py.range 1 (retries + 1)) s))
    - 2 /\
  2 ^ Z.of_nat
        (List.length
           (attempts_made local_path remote_path verify retries
              (Py.range 1 (retries + 1)) s))
  - 2
  <= 2 ^ retries - 2.
Proof.
  intros Hretries. unfold secure_transfer.
  destruct (loop_sleeps local_path remote_path verify retries
              (Z.to_nat (retries - 1)) 1 s Hretries eq_refl) as [Hlen Hsl].
  set (k := List.length
              (attempts_made local_path remote_path verify retries
                 (Py.range 1 (retries + 1)) s)) in *.
  split; [lia |].
  split.
  { rewrite Hsl.
    replace (1 + Z.of_nat k - 1) with (Z.of_nat k) by lia. reflexivity. }
  split.
  { pose proof (sum_powers_of_two (k - 1) 1 ltac:(lia)) as Hsum.
    replace (1 + Z.of_nat (k - 1)) with (Z.of_nat k) in Hsum by lia.
    exact Hsum. }
  assert (2 ^ Z.of_nat k <= 2 ^ retries) by (apply Z.pow_le_mono_r; lia).
  lia.
Qed.

(** What [True] guarantees about the record.  The record appended names the
    local path and carries the digest of the bytes read from it in the
    attempt that succeeded, the copy of that attempt was clean, and with
    [verify] on that digest is what the first token printed by the remote
    [sha256sum] decoded to. *)
Theorem record_of_a_successful_transfer (s : Session World) :
  fst (secure_transfer local_path remote_path verify retries s) = Some true ->
  exists earlier s0 m bs,
    attempts_made local_path remote_path verify retries
      (Py.range 1 (retries + 1)) s
    = earlier ++ [(s0, inr tt)] /\
    metrics (snd (secure_transfer local_path remote_path verify retries s))
    = metrics s ++ [m] /\
    filename m = local_path /\
    fst (read_file local_path (world_read s0)) = inr bs /\
    sha256_checksum m = sha256_hexdigest bs /\
    fst (scp_put local_path remote_path (world_put local_path s0)) = inr tt /\
    (verify = true ->
     exists out t,
       fst (ssh_exec_command ("sha256sum " ++ remote_path)%string
              (world_verify local_path remote_path s0)) = inr out /\
       first_token out = inr t /\
       decode t = inr (sha256_checksum m)).
Proof.
  intros Hret. unfold secure_transfer in *.
  destruct (loop_success_attempt local_path remote_path verify retries _ s Hret)
    as (earlier & s0 & Hmade & _ & Hm0 & Hatt).
  destruct (attempt_success_record local_path remote_path verify s0 _ tt Hatt)
    as (m & bs & Hm & Hname & Hread & Hsum & Hput & Hverify).
  exists earlier, s0, m, bs.
  repeat split; try assumption.
  now rewrite Hm, Hm0.
Qed.

(** A clock that stands still.  When every reading of the clock is the same
    [t] (and [t - t] is zero, as for every finite [t]), the elapsed time of
    each attempt is zero, the throughput division raises, and the attempt
    counts as failed: with [retries >= 1] the call returns [False] and
    appends nothing, whatever the channel does. *)
Theorem frozen_clock_is_reported_as_failure (t : float) (s : Session World) :
  1 <= retries ->
  (forall w, fst (time_time w) = t) ->
  Py.is_zero ((t - t) * Py.float_of_int 1000000)%float = true ->
  fst (secure_transfer local_path remote_path verify retries s) = Some false /\
  metrics (snd (secure_transfer local_path remote_path verify retries s))
  = metrics s.
Proof.
  intros Hretries Hclock Hzero. unfold secure_transfer.
  pose proof (loop_metrics local_path remote_path verify retries
                (Py.range 1 (retries + 1)) s) as Hm.
  destruct (loop_returns local_path remote_path verify retries
              (Py.range 1 (retries + 1)) s) as [b Hb].
  { apply range_In. lia. }
  destruct b.
  - exfalso.
    destruct (loop_success local_path remote_path verify retries _ s Hb)
      as (earlier & s0 & m & _ & _ & _ & _ & Ht & Hd).
    apply throughput_formula in Hd as [_ Hd].
    unfold timed_from_attempt_start in Ht. rewrite !Hclock in Ht.
    rewrite Ht, Hzero in Hd. discriminate.
  - rewrite Hb in Hm. now split.
Qed.

End TransferMore.

(** With [verify] off the remote digest is never asked for: the call runs
    the same, step for step, whatever the remote command runner would do. *)
Theorem unverified_transfer_ignores_the_remote_digest
  {World : Type} (c : Collaborators World)
  (exec : string -> World -> Py.result (list byte) * World)
  (local_path remote_path : string) (retries : Z) (s : Session World) :
  @secure_transfer World (with_exec_command c exec)
    local_path remote_path false retries s
  = @secure_transfer World c local_path remote_path false retries s.
Proof.
  unfold secure_transfer. generalize (Py.range 1 (retries + 1)) as attempts.
  intros attempts. revert s.
  induction attempts as [| k rest IH]; intros s; [reflexivity |].
  cbn [retry_loop].
  change (@attempt World (with_exec_command c exec) local_path remote_path
            false s)
    with (@attempt World c local_path remote_path false s).
  destruct (@attempt World c local_path remote_path false s) as [[e | u] s1];
    [| reflexivity].
  destruct (k =? retries); [reflexivity |].
  apply IH.
Qed.

(** ** More on [_get_remote_sha256] *)

Lemma lstrip_spec (out : list byte) :
  exists pre,
    out = pre ++ lstrip out /\
    forallb is_space pre = true /\
    (lstrip out = [] \/
     exists b rest, lstrip out = b :: rest /\ is_space b = false).
Proof.
  induction out as [| b out (pre & Hout & Hpre & Hhead)].
  - exists []. repeat split. now left.
  - cbn [lstrip]. destruct (is_space b) eqn:Eb.
    + exists (b :: pre). cbn [app forallb]. rewrite Eb, Hpre.
      repeat split; [now rewrite <- Hout | exact Hhead].
    + exists []. repeat split. right. now exists b, out.
Qed.

Lemma token_spec (l : list byte) :
  exists post,
    l = token l ++ post /\
    forallb (fun b => negb (is_space b)) (token l) = true /\
    (post = [] \/ exists b rest, post = b :: rest /\ is_space b = true).
Proof.
  induction l as [| b l (post & Hl & Htok & Hpost)].
  - exists []. repeat split. now left.
  - cbn [token]. destruct (is_space b) eqn:Eb.
    + exists (b :: l). repeat split. right. now exists b, l.
    + exists post. cbn [app forallb]. rewrite Eb, Htok.
      repeat split; [now rewrite <- Hl | exact Hpost].
Qed.

(** [out.split()[0]], in full.  When it has a value, the value is a token:
    not empty, free of whitespace, preceded in the output by whitespace only
    and followed by whitespace or by nothing.  It raises [IndexError] exactly
    on an output that is empty or blank, as when the remote command printed
    nothing. *)
Theorem first_token_splits_the_output (out : list byte) :
  match first_token out with
  | inr t =>
      t <> [] /\
      forallb (fun b => negb (is_space b)) t = true /\
      exists pre post,
        out = pre ++ t ++ post /\
        forallb is_space pre = true /\
        (post = [] \/ exists b rest, post = b :: rest /\ is_space b = true)
  | inl e =>
      e = Py.IndexError "list index out of range" /\
      forallb is_space out = true
  end.
Proof.
  unfold first_token.
  destruct (lstrip_spec out) as (pre & Hout & Hpre & Hhead).
  destruct (token_spec (lstrip out)) as (post & Hl & Htok & Hpost).
  destruct (token (lstrip out)) as [| b t] eqn:Et.
  - split; [reflexivity |].
    destruct Hhead as [Hnil | (b & rest & Hcons & Hb)].
    + rewrite Hout, Hnil, app_nil_r. exact Hpre.
    + rewrite Hcons in Et. cbn [token] in Et. rewrite Hb in Et. discriminate.
  - split; [discriminate |]. split; [exact Htok |].
    exists pre, post. split; [| now split].
    rewrite Hout at 1. now rewrite Hl at 1.
Qed.

(** ** [plot_control_chart] *)

Lemma plot_without_records {World : Type} (s : Session World)
  (save_path : option string) :
  metrics s = [] -> plot_control_chart s save_path = (inr tt, []).
Proof. intros H. unfold plot_control_chart. now rewrite H. Qed.

Lemma plot_one_record {World : Type} (s : Session World)
  (save_path : option string) (m : TransferMetrics) :
  metrics s = [m] ->
  plot_control_chart s save_path
  = (inl (KeyError "upper_control_limit"),
     [ Plt.figure 12 6;
       Plt.plot [throughput_mbps m] "b-" "Throughput (Mbps)" ]).
Proof. intros H. unfold plot_control_chart. now rewrite H. Qed.

Lemma plot_many_records {World : Type} (s : Session World)
  (save_path : option string) :
  (2 <= List.length (metrics s))%nat ->
  plot_control_chart s save_path
  = (inr tt,
     [ Plt.figure 12 6;
       Plt.plot (map throughput_mbps (metrics s)) "b-" "Throughput (Mbps)";
       Plt.axhline
         (Np.mean (map throughput_mbps (metrics s))
          + 3 * Np.std (map throughput_mbps (metrics s)))%float
         "r" (Some "--") "UCL";
       Plt.axhline
         (Np.mean (map throughput_mbps (metrics s))
          - 3 * Np.std (map throughput_mbps (metrics s)))%float
         "r" (Some "--") "LCL";
       Plt.axhline (Np.mean (map throughput_mbps (metrics s))) "g" None "Mean";
       Plt.title "SCP Transfer Throughput Control Chart";
       Plt.xlabel "Transfer #";
       Plt.ylabel "Throughput (Mbps)";
       Plt.legend;
       Plt.grid true;
       match save_path with
       | Some (String c path) => Plt.savefig (String c path)
       | _ => Plt.show
       end ]).
Proof.
  intros Hlen. unfold plot_control_chart.
  destruct (metrics s) as [| m1 [| m2 ms]] eqn:Em;
    cbn [List.length] in Hlen; try lia.
  cbn [map]. unfold control_chart, len. cbn [data List.length].
  destruct (Z.ltb_spec (Z.of_nat (S (S (List.length
              (map throughput_mbps ms))))) 2) as [Hlt | _]; [lia |].
  destruct save_path as [[| c path] |]; reflexivity.
Qed.

(** Below two records there is no chart.  Without records the call returns
    at once and draws nothing.  With exactly one record [control_chart]
    gives the empty dictionary and [limits['upper_control_limit']] raises
    [KeyError], after the figure is created and the throughput is drawn and
    before anything is saved or shown. *)
Theorem plot_control_chart_needs_two_records
  {World : Type} (s : Session World) (save_path : option string) :
  (metrics s = [] -> plot_control_chart s save_path = (inr tt, [])) /\
  (forall m,
     metrics s = [m] ->
     plot_control_chart s save_path
     = (inl (KeyError "upper_control_limit"),
        [ Plt.figure 12 6;
          Plt.plot [throughput_mbps m] "b-" "Throughput (Mbps)" ])).
Proof.
  split.
  - apply plot_without_records.
  - intros m. apply plot_one_record.
Qed.

Lemma plot_control_chart_needs_two_records_witness :
  fst (plot_control_chart one_record (Some "chart.png"))
  = inl (KeyError "upper_control_limit").
Proof.
  rewrite (proj2 (plot_control_chart_needs_two_records one_record
                    (Some "chart.png")) _ eq_refl).
  reflexivity.
Defined.

(** With two records or more the chart is drawn in full and the call ends
    normally: the upper and lower lines are at the mean plus and minus three
    standard deviations of the throughputs, the last thing done is to save
    the figure when [save_path] is a string that is not empty, and to show
    it otherwise, the empty string included; it never does both. *)
Theorem plot_control_chart_draws_the_limits
  {World : Type} (s : Session World) (save_path : option string) :
  (2 <= List.length (metrics s))%nat ->
  exists drawn,
    plot_control_chart s save_path
    = (inr tt,
       drawn ++
       [ match save_path with
         | Some (String c path) => Plt.savefig (String c path)
         | _ => Plt.show
         end ]) /\
    In (Plt.axhline
          (Np.mean (map throughput_mbps (metrics s))
           + 3 * Np.std (map throughput_mbps (metrics s)))%float
          "r" (Some "--") "UCL") drawn /\
    In (Plt.axhline
          (Np.mean (map throughput_mbps (metrics s))
           - 3 * Np.std (map throughput_mbps (metrics s)))%float
          "r" (Some "--") "LCL") drawn /\
    In (Plt.axhline (Np.mean (map throughput_mbps (metrics s))) "g" None "Mean")
       drawn /\
    ~ In Plt.show drawn /\
    (forall path, ~ In (Plt.savefig path) drawn).
Proof.
  intros Hlen. rewrite (plot_many_records s save_path Hlen).
  eexists. split.
  - match goal with
    | |- (_, ?a :: ?b :: ?c :: ?d :: ?e :: ?f :: ?g :: ?h :: ?i :: ?j :: ?k)
         = _ =>
        change (a :: b :: c :: d :: e :: f :: g :: h :: i :: j :: k)
          with ([a; b; c; d; e; f; g; h; i; j] ++ k)
    end.
    reflexivity.
  - cbn [In]. repeat split; auto 7.
    + intros [H | [H | [H | [H | [H | [H | [H | [H | [H | [H | []]]]]]]]]]];
        discriminate.
    + intros path
        [H | [H | [H | [H | [H | [H | [H | [H | [H | [H | []]]]]]]]]]];
        discriminate.
Qed.

(** Two records of the same throughput. *)
Lemma plot_control_chart_draws_the_limits_witness :
  fst (plot_control_chart
         (mkSession (metrics one_record ++ metrics one_record) [] tt)
         (Some ""))
  = inr tt.
Proof.
  assert (H : (2 <= List.length (metrics one_record ++ metrics one_record))%nat)
    by (cbn; lia).
  destruct (plot_control_chart_draws_the_limits
              (mkSession (metrics one_record ++ metrics one_record) [] tt)
              (Some "") H) as (drawn & -> & _).
  reflexivity.
Defined.

(** ** The example session *)

Section ExampleFacts.

Context {World : Type} {collaborators : Collaborators World}.

(** A call appends the record of its local path when it returns [True], and
    nothing otherwise. *)
Lemma secure_transfer_record (local_path remote_path : string)
  (verify : bool) (retries : Z) (s : Session World) :
  exists ms,
    metrics (snd (secure_transfer local_path remote_path verify retries s))
    = metrics s ++ ms /\
    map filename ms
    = (if succeeded
            (fst (secure_transfer local_path remote_path verify retries s))
       then [local_path] else []).
Proof.
  unfold secure_transfer.
  pose proof (loop_metrics local_path remote_path verify retries
                (Py.range 1 (retries + 1)) s) as Hm.
  destruct (fst (retry_loop local_path remote_path verify retries
                   (Py.range 1 (retries + 1)) s)) as [[|] |] eqn:Hret;
    cbn [succeeded];
    try (exists []; now rewrite app_nil_r).
  destruct (loop_success_attempt local_path remote_path verify retries _ s Hret)
    as (earlier & s0 & _ & _ & Hm0 & Hatt).
  apply attempt_success in Hatt as (m & Hm' & _ & Hname & _).
  exists [m]. cbn [map]. rewrite Hm', Hm0, Hname. now split.
Qed.

(** The files whose transfer returned [True], in order. *)
Lemma transfer_files_metrics (files : list (string * string)) :
  forall s : Session World,
    List.length (fst (transfer_files files s)) = List.length files /\
    Forall (fun r => r = Some true \/ r = Some false)
      (fst (transfer_files files s)) /\
    exists ms,
      metrics (snd (transfer_files files s)) = metrics s ++ ms /\
      map filename ms
      = map (fun fr => fst (fst fr))
          (filter (fun fr => succeeded (snd fr))
             (combine files (fst (transfer_files files s)))).
Proof.
  induction files as [| [local remote] rest IH]; intros s.
  - cbn. repeat split; [constructor |]. exists []. now rewrite app_nil_r.
  - cbn [transfer_files].
    destruct (secure_transfer_record local remote true 3 s)
      as (ms1 & Hm1 & Hn1).
    assert (Hb : exists b, fst (secure_transfer local remote true 3 s) = Some b).
    { apply loop_returns. apply range_In. lia. }
    destruct Hb as [b Hb].
    destruct (secure_transfer local remote true 3 s) as [r s1].
    cbn [fst snd] in *. subst r.
    destruct (IH s1) as (Hlen & Hall & ms2 & Hm2 & Hn2).
    destruct (transfer_files rest s1) as [rs s2]. cbn [fst snd] in *.
    split; [cbn; now rewrite Hlen |].
    split; [constructor; [destruct b; auto | exact Hall] |].
    exists (ms1 ++ ms2). split; [rewrite Hm2, Hm1; now rewrite app_assoc |].
    rewrite map_app, Hn1, Hn2. cbn [combine filter snd].
    destruct (succeeded (Some b)); reflexivity.
Qed.

End ExampleFacts.

(** The loop of the example keeps one record per file whose transfer
    returned [True], named after the local path, in the order of the files,
    after the records that were there; every call returns a boolean, the
    default [retries] being 3. *)
Theorem transfer_files_records_the_successes
  {World : Type} {collaborators : Collaborators World}
  (files : list (string * string)) (s : Session World) :
  List.length (fst (transfer_files files s)) = List.length files /\
  Forall (fun r => r = Some true \/ r = Some false)
    (fst (transfer_files files s)) /\
  exists ms,
    metrics (snd (transfer_files files s)) = metrics s ++ ms /\
    map filename ms
    = map (fun fr => fst (fst fr))
        (filter (fun fr => succeeded (snd fr))
           (combine files (fst (transfer_files files s)))).
Proof. apply transfer_files_metrics. Qed.

(** The example from a session without records, by the number of files whose
    transfer returned [True].  None: the report is the empty dictionary and
    nothing is drawn.  Exactly one: the report is populated, and the chart
    raises [KeyError] on [upper_control_limit].  Two or more: the chart is
    drawn and saved to [throughput_chart.png]. *)
Theorem example_usage_by_successes
  {World : Type} {collaborators : Collaborators World}
  (norm_ppf : float -> float) (files : list (string * string))
  (s : Session World) :
  metrics s = [] ->
  match
    List.length
      (filter (fun fr => succeeded (snd fr))
         (combine files (fst (transfer_files files s))))
  with
  | O =>
      fst (fst (example_usage norm_ppf files s)) = Py.VDict [] /\
      snd (fst (example_usage norm_ppf files s)) = (inr tt, [])
  | S O =>
      fst (fst (example_usage norm_ppf files s)) <> Py.VDict [] /\
      fst (snd (fst (example_usage norm_ppf files s)))
      = inl (KeyError "upper_control_limit")
  | S (S _) =>
      fst (fst (example_usage norm_ppf files s)) <> Py.VDict [] /\
      exists drawn,
        snd (fst (example_usage norm_ppf files s))
        = (inr tt, drawn ++ [Plt.savefig "throughput_chart.png"])
  end.
Proof.
  intros Hempty. unfold example_usage. cbn [fst snd].
  destruct (transfer_files_metrics files s) as (_ & _ & ms & Hm & Hn).
  rewrite Hempty in Hm. cbn [app] in Hm.
  apply (f_equal (@List.length _)) in Hn. rewrite !length_map in Hn.
  rewrite <- Hn.
  assert (Hreport :
    ms <> [] ->
    generate_quality_report norm_ppf (snd (transfer_files files s))
    <> Py.VDict []).
  { intros Hne. unfold generate_quality_report. rewrite Hm.
    destruct ms; [congruence | discriminate]. }
  destruct ms as [| m1 [| m2 ms]]; cbn [List.length].
  - split.
    + unfold generate_quality_report. now rewrite Hm.
    + now apply plot_without_records.
  - split; [apply Hreport; discriminate |].
    now rewrite (plot_one_record _ _ m1 Hm).
  - split; [apply Hreport; discriminate |].
    rewrite plot_many_records by (rewrite Hm; cbn; lia).
    eexists.
    match goal with
    | |- (_, ?a :: ?b :: ?c :: ?d :: ?e :: ?f :: ?g :: ?h :: ?i :: ?j :: ?k)
         = _ =>
        change (a :: b :: c :: d :: e :: f :: g :: h :: i :: j :: k)
          with ([a; b; c; d; e; f; g; h; i; j] ++ k)
    end.
    reflexivity.
Qed.

(** Two files over a channel that fails once: the first transfer succeeds at
    its second attempt, the second at once. *)
Lemma example_usage_by_successes_witness :
  exists drawn,
    snd (fst (example_usage (fun p => p)
                [("/f", "/tmp/f"); ("/g", "/tmp/g")]
                (Sim.start [false; true; true])))
    = (inr tt, drawn ++ [Plt.savefig "throughput_chart.png"]).
Proof.
  pose proof (example_usage_by_successes (fun p => p)
                [("/f", "/tmp/f"); ("/g", "/tmp/g")]
                (Sim.start [false; true; true]) eq_refl) as H.
  assert (Hc :
    List.length
      (filter (fun fr => succeeded (snd fr))
         (combine [("/f", "/tmp/f"); ("/g", "/tmp/g")]
            (fst (transfer_files [("/f", "/tmp/f"); ("/g", "/tmp/g")]
                    (Sim.start [false; true; true])))))
    = 2%nat) by (vm_compute; reflexivity).
  rewrite Hc in H. exact (proj2 H).
Defined.

(** ** More on [SixSigmaAnalyzer] *)

(** *** Division by zero on binary64 numbers *)

Lemma is_zero_inv (x : float) :
  Py.is_zero x = true -> exists b, Prim2SF x = S754_zero b.
Proof.
  unfold Py.is_zero. rewrite eqb_spec.
  change (Prim2SF 0) with (S754_zero false).
  destruct (Prim2SF x) as [b | b | | b m e]; cbn; try discriminate.
  - intros _. now exists b.
  - destruct b; discriminate.
  - destruct b; discriminate.
Qed.

Lemma three_times_zero (x : float) (b : bool) :
  Prim2SF x = S754_zero b -> Prim2SF (3 * x) = S754_zero b.
Proof.
  intros H. rewrite mul_spec, H.
  change (Prim2SF 3) with (S754_finite false 6755399441055744 (-51)).
  reflexivity.
Qed.

Lemma divided_by_zero (x z : float) (b : bool) :
  Prim2SF z = S754_zero b ->
  Prim2SF (x / z) = S754_nan \/ exists s, Prim2SF (x / z) = S754_infinity s.
Proof.
  intros H. rewrite div_spec, H.
  destruct (Prim2SF x) as [s | s | | s m e]; cbn; eauto.
Qed.

Lemma not_finite_intro (r : float) :
  Prim2SF r = S754_nan \/ (exists s, Prim2SF r = S754_infinity s) ->
  not_finite r = true.
Proof.
  unfold not_finite, PrimFloat.is_nan, Py.is_infinite.
  rewrite !eqb_spec, abs_spec.
  change (Prim2SF infinity) with (S754_infinity false).
  intros [-> | [s ->]]; [reflexivity |].
  cbn. now destruct s.
Qed.

(** A float that is not finite is not 0.0. *)
Lemma not_finite_not_zero (r : float) :
  not_finite r = true -> r <> 0%float.
Proof.
  intros H ->. vm_compute in H. discriminate.
Qed.

(** Whenever the standard deviation of two samples or more is zero,
    [calculate_cpk] divides by zero: whatever the limits, its result is
    infinite or not a number, never 0.0 and never any finite index. *)
Theorem calculate_cpk_of_zero_deviation
  (self : SixSigmaAnalyzer) (usl lsl : float) :
  2 <= len self ->
  Py.is_zero (Np.std (data self)) = true ->
  not_finite (calculate_cpk self usl lsl) = true /\
  calculate_cpk self usl lsl <> 0%float.
Proof.
  intros Hlen Hzero.
  assert (Hnf : not_finite (calculate_cpk self usl lsl) = true).
  { unfold calculate_cpk.
    destruct (Z.ltb_spec (len self) 2); [lia |].
    apply is_zero_inv in Hzero as [b Hb].
    apply three_times_zero in Hb.
    unfold Py.min.
    destruct (PrimFloat.ltb _ _);
      apply not_finite_intro; eapply divided_by_zero; exact Hb. }
  split; [exact Hnf | now apply not_finite_not_zero].
Qed.

Lemma calculate_cpk_of_zero_deviation_witness :
  not_finite
    (calculate_cpk (mkSixSigmaAnalyzer [8; 8; 8]%float) 100%float 10%float)
  = true.
Proof.
  apply (calculate_cpk_of_zero_deviation
           (mkSixSigmaAnalyzer [8; 8; 8]%float) 100%float 10%float).
  - vm_compute. discriminate.
  - vm_compute. reflexivity.
Defined.

(** *** The sigma level counts, it does not add *)

Lemma filter_length_permutation {A : Type} (f : A -> bool) (l l' : list A) :
  Permutation l l' ->
  List.length (filter f l) = List.length (filter f l').
Proof.
  induction 1 as [| x l l' _ IH | x y l | l l' l'' _ IH1 _ IH2].
  - reflexivity.
  - cbn [filter]. destruct (f x); cbn [List.length]; now rewrite IH.
  - cbn [filter]. destruct (f x), (f y); reflexivity.
  - now rewrite IH1.
Qed.

(** [calculate_sigma_level] depends on the samples only through how many
    there are and how many are below 10: it is the same for two analyzers
    that agree on both, and so for the same samples in another order. *)
Theorem calculate_sigma_level_counts
  (norm_ppf : float -> float) (a b : SixSigmaAnalyzer) :
  (len a = len b -> defects a = defects b ->
   calculate_sigma_level norm_ppf a = calculate_sigma_level norm_ppf b) /\
  (Permutation (data a) (data b) ->
   calculate_sigma_level norm_ppf a = calculate_sigma_level norm_ppf b).
Proof.
  assert (Hcounts :
    len a = len b -> defects a = defects b ->
    calculate_sigma_level norm_ppf a = calculate_sigma_level norm_ppf b).
  { intros Hlen Hdef. unfold calculate_sigma_level, defect_rate.
    now rewrite Hlen, Hdef. }
  split; [exact Hcounts |].
  intros Hperm. apply Hcounts.
  - unfold len. now rewrite (Permutation_length Hperm).
  - rewrite !defects_count. f_equal. now apply filter_length_permutation.
Qed.

Lemma calculate_sigma_level_counts_witness :
  calculate_sigma_level (fun p => p) scenario
  = calculate_sigma_level (fun p => p)
      (mkSixSigmaAnalyzer [12; 5; 8; 9; 11]%float).
Proof.
  apply (calculate_sigma_level_counts (fun p => p) scenario
           (mkSixSigmaAnalyzer [12; 5; 8; 9; 11]%float)).
  unfold scenario. cbn [data].
  apply Permutation_sym.
  apply (Permutation_middle [5; 8]%float [9; 11]%float 12%float).
Defined.

(** *** The report of a single transfer *)

(** With exactly one record the report is populated, its capability index
    and sigma level are the 0.0 an analyzer gives below two samples, whatever
    the throughput, and it lists the record. *)
Theorem report_of_a_single_record
  (norm_ppf : float -> float) {World : Type} (s : Session World)
  (m : TransferMetrics) :
  metrics s = [m] ->
  generate_quality_report norm_ppf s
  = Py.VDict
      [ ("throughput_stats",
         Py.VDict
           [ ("mean", Py.VFloat (Np.mean [throughput_mbps m]));
             ("std_dev", Py.VFloat (Np.std [throughput_mbps m]));
             ("cpk", Py.VFloat 0%float);
             ("sigma_level", Py.VFloat 0%float) ]);
        ("transfer_metrics", Py.VList [vars m]) ].
Proof.
  intros H. unfold generate_quality_report. rewrite H. reflexivity.
Qed.

Lemma report_of_a_single_record_witness :
  Py.dict_get "cpk"
    match
      Py.dict_get "throughput_stats"
        match generate_quality_report (fun p => p) one_record with
        | Py.VDict d => d
        | _ => []
        end
    with
    | Some (Py.VDict d) => d
    | _ => []
    end
  = Some (Py.VFloat 0%float).
Proof.
  rewrite (report_of_a_single_record (fun p => p) one_record _ eq_refl).
  reflexivity.
Defined.

(** ** The scenarios, run *)

(** A remote command that prints another digest than the one of the file:
    [xy], and then a token that is not ASCII, the two bytes of the UTF-8
    encoding of U+00E9, which [decode] accepts. *)
Lemma checksum_mismatch_fails_the_attempt_witness :
  fst (attempt "/f" "/tmp/f" true
         (mkSession [] []
            (Sim.mkWorld 100%float (Some Sim.content) [true]
               [x78; x79; x0a] 4%float 1%float)))
  = inl (Py.IntegrityError "Checksum mismatch") /\
  decode [xc3; xa9] = inr (string_of_list_byte [xc3; xa9]) /\
  fst (attempt "/f" "/tmp/f" true
         (mkSession [] []
            (Sim.mkWorld 100%float (Some Sim.content) [true]
               [xc3; xa9; x20; x2f; x66; x0a] 4%float 1%float)))
  = inl (Py.IntegrityError "Checksum mismatch").
Proof.
  split; [| split; [reflexivity |]].
  - rewrite (checksum_mismatch_fails_the_attempt "/f" "/tmp/f"
               (mkSession [] []
                  (Sim.mkWorld 100%float (Some Sim.content) [true]
                     [x78; x79; x0a] 4%float 1%float))
               Sim.content [x78; x79; x0a] [x78; x79] "xy");
      try reflexivity.
    vm_compute. discriminate.
  - rewrite (checksum_mismatch_fails_the_attempt "/f" "/tmp/f"
               (mkSession [] []
                  (Sim.mkWorld 100%float (Some Sim.content) [true]
                     [xc3; xa9; x20; x2f; x66; x0a] 4%float 1%float))
               Sim.content [xc3; xa9; x20; x2f; x66; x0a] [xc3; xa9]
               (string_of_list_byte [xc3; xa9]));
      try reflexivity.
    vm_compute. discriminate.
Defined.

(** A remote command whose output is not text: the token [ok\xff]. *)
Lemma undecodable_token_fails_the_attempt_witness :
  fst (attempt "/f" "/tmp/f" true
         (mkSession [] []
            (Sim.mkWorld 100%float (Some Sim.content) [true]
               [x6f; x6b; xff; x20; x2f; x66; x0a] 4%float 1%float)))
  = inl (Py.UnicodeDecodeError
           "'utf-8' codec can't decode byte 0xff in position 2: invalid start byte").
Proof.
  rewrite (undecodable_token_fails_the_attempt "/f" "/tmp/f"
             (mkSession [] []
                (Sim.mkWorld 100%float (Some Sim.content) [true]
                   [x6f; x6b; xff; x20; x2f; x66; x0a] 4%float 1%float))
             Sim.content [x6f; x6b; xff; x20; x2f; x66; x0a]
             [x6f; x6b] [] xff);
    try reflexivity.
  - repeat constructor.
  - right. vm_compute. discriminate.
Defined.

(** A channel that fails once: two attempts, one sleep of two seconds. *)
Lemma backoff_schedule_witness :
  sleeps (trace (snd (secure_transfer "/f" "/tmp/f" true 3
                        (Sim.start [false; true]))))
  = [2].
Proof.
  assert (H : 1 <= 3) by lia.
  destruct (backoff_schedule "/f" "/tmp/f" true 3 (Sim.start [false; true]) H)
    as (_ & Hsl & _).
  exact Hsl.
Defined.

Lemma record_of_a_successful_transfer_witness :
  exists m,
    metrics (snd (secure_transfer "/f" "/tmp/f" true 3
                    (Sim.start [false; true])))
    = [m] /\
    filename m = "/f".
Proof.
  assert (H : fst (secure_transfer "/f" "/tmp/f" true 3
                     (Sim.start [false; true])) = Some true)
    by (vm_compute; reflexivity).
  destruct (record_of_a_successful_transfer "/f" "/tmp/f" true 3
              (Sim.start [false; true]) H)
    as (_ & _ & m & _ & _ & Hm & Hname & _).
  exists m. split; [exact Hm | exact Hname].
Defined.

(** The world whose clock stands still, over a channel that works. *)
Lemma frozen_clock_is_reported_as_failure_witness :
  fst (secure_transfer "/f" "/tmp/f" true 3 (mkSession [] [] tt)) = Some false.
Proof.
  assert (H1 : 1 <= 3) by lia.
  assert (H2 : forall w : unit, fst (time_time w) = 100%float)
    by (intros w; reflexivity).
  assert (H3 :
    Py.is_zero ((100 - 100) * Py.float_of_int 1000000)%float = true)
    by (vm_compute; reflexivity).
  exact (proj1 (frozen_clock_is_reported_as_failure "/f" "/tmp/f" true 3
                  100%float (mkSession [] [] tt) H1 H2 H3)).
Defined.
